(** * uuid2bin: IS_UUID / UUID_TO_BIN / BIN_TO_UUID

    A shallow embedding of [src/uuid2bin.cc] and the properties of its
    validator, decoder, encoder and timestamp transforms.

    Data model.
    - A C [char] is an [ascii] (eight bits).  Plain [char] is taken as the
      signed 8-bit type of the x86-64 build; [int_of_char] is the integer
      promotion and [char_of_int] the narrowing conversion (modulo 256).
    - A [char*] with a known extent (text, the 16-byte buffer, the result
      buffer) is a [list char]; pointer arithmetic [p + k] is [skipn k p],
      [p[k]] is [nth k p NUL], and [p[k] = v] is [store p k v].
    - [int] is a [Z] with the 32-bit conversion [to_int] written out where the
      source narrows an [unsigned long].
    - The out-parameters [*is_null] and [*is_error] (both cleared by the host
      before the call) and the returned pointer form the record [udf_out]. *)

From Stdlib Require Import ZArith List Bool Ascii String Lia.
Import ListNotations.

Local Open Scope string_scope.
Local Open Scope Z_scope.

(** ** Characters and integers *)

Abbreviation char := ascii (only parsing).

Definition NUL : char := Ascii.zero.

(** Integer promotion of a (signed) [char]. *)
Definition int_of_char (c : char) : Z :=
  let n := Z.of_N (N_of_ascii c) in
  if n <? 128 then n else n - 256.

(** Conversion of an [int] to [char]: the low eight bits. *)
Definition char_of_int (z : Z) : char :=
  ascii_of_N (Z.to_N (z mod 256)).

(** Conversion of an [unsigned long] to [int]: the low 32 bits, signed. *)
Definition to_int (z : Z) : Z :=
  let m := z mod 2 ^ 32 in
  if m <? 2 ^ 31 then m else m - 2 ^ 32.

(** A string literal as a [char] array (without the terminating NUL). *)
Definition chars (s : string) : list char := list_ascii_of_string s.

(** [p[i] = v].  The source only stores inside the array. *)
Fixpoint store (p : list char) (i : nat) (v : char) : list char :=
  match p, i with
  | [], _ => []
  | _ :: t, O => v :: t
  | h :: t, S i' => h :: store t i' v
  end.

(** ** Hex primitives *)

(** [hexchar_to_int], lines 63-74. *)
Definition hexchar_to_int (c : char) : Z :=
  if (int_of_char "0"%char <=? int_of_char c) && (int_of_char c <=? int_of_char "9"%char)
  then int_of_char c - int_of_char "0"%char
  else
    (* c |= 32 *)
    let c := char_of_int (Z.lor (int_of_char c) 32) in
    if (int_of_char "a"%char <=? int_of_char c) && (int_of_char c <=? int_of_char "f"%char)
    then int_of_char c - int_of_char "a"%char + 10
    else -1.

(** The specification's [hexCharToValue], written from its words: a digit is
    worth its position in "0123456789", a letter ten plus its position in
    "abcdef" or in "ABCDEF", anything else the invalid value -1. *)
Fixpoint index_of (c : char) (l : list char) : option Z :=
  match l with
  | [] => None
  | x :: t => if Ascii.eqb c x then Some 0 else option_map Z.succ (index_of c t)
  end.

Definition hexCharToValue (c : char) : Z :=
  match index_of c (chars "0123456789") with
  | Some d => d
  | None =>
    match index_of c (chars "abcdef") with
    | Some k => 10 + k
    | None =>
      match index_of c (chars "ABCDEF") with
      | Some k => 10 + k
      | None => -1
      end
    end
  end.

(** A hexadecimal digit, in either case. *)
Definition is_hex (c : char) : bool :=
  existsb (Ascii.eqb c) (chars "0123456789abcdefABCDEF").

(** [hexdigits[k]] for the static table of [uuid_hexlify]. *)
Definition hexdigits : list char := chars "0123456789abcdef".

Definition hexdigit (k : Z) : char := nth (Z.to_nat k) hexdigits NUL.

(** ** Memory *)

(** An array the source leaves uninitialised ([char data[16]], [char buf[4]]).
    Every cell is written before it is read: the results below hold for
    any initial contents ([uuid_unhexlify_value], [uuid_hexlify_any_buffer]). *)
Definition uninit (n : nat) : list char := repeat NUL n.

(** [memcpy(dst + doff, src + soff, n)]: the resulting contents of [dst].
    The source copies inside both arrays and between disjoint ranges only. *)
Definition memcpy (dst : list char) (doff : nat) (src : list char) (soff n : nat)
  : list char :=
  firstn doff dst ++ firstn n (skipn soff src) ++ skipn (doff + n) dst.

(** ** Timestamp reorder transform *)

(** [swap_ts], lines 156-164. *)
Definition swap_ts (uuid : list char) : list char :=
  let buf := uninit 4 in
  let buf := memcpy buf 0 uuid 0 4 in
  let uuid := memcpy uuid 0 uuid 6 2 in
  let uuid := memcpy uuid 2 uuid 4 2 in
  let uuid := memcpy uuid 4 buf 0 4 in
  uuid.

(** [unswap_ts], lines 167-175. *)
Definition unswap_ts (uuid : list char) : list char :=
  let buf := uninit 4 in
  let buf := memcpy buf 0 uuid 4 4 in
  let uuid := memcpy uuid 4 uuid 2 2 in
  let uuid := memcpy uuid 6 uuid 0 2 in
  let uuid := memcpy uuid 0 buf 0 4 in
  uuid.

(** ** Text to binary *)

(** [switch (i) { case 3: case 5: case 7: case 9: ... }]. *)
Definition dash_after (i : nat) : bool :=
  match i with
  | 3%nat | 5%nat | 7%nat | 9%nat => true
  | _ => false
  end.

(** [uuid[i] = upper << 4 | lower]. *)
Definition hexpair (upper lower : Z) : char :=
  char_of_int (Z.lor (Z.shiftl upper 4) lower).

(** The loop of the 32-character branch (lines 86-93); [n] counts the
    iterations that remain, [16 - i].  The result is the returned [bool]
    and the contents of [uuid] at that point. *)
Fixpoint unhexlify_plain (n i : nat) (ptr uuid : list char) : bool * list char :=
  match n with
  | O => (true, uuid)
  | S n' =>
    let upper := hexchar_to_int (nth 0 ptr NUL) in
    let lower := hexchar_to_int (nth 1 ptr NUL) in
    if (upper <? 0) || (lower <? 0) then (false, uuid)
    else
      let uuid := store uuid i (hexpair upper lower) in
      let ptr := skipn 2 ptr in
      unhexlify_plain n' (S i) ptr uuid
  end.

(** The loop of the 36-character branch (lines 107-128). *)
Fixpoint unhexlify_dashed (n i : nat) (ptr uuid : list char) : bool * list char :=
  match n with
  | O => (true, uuid)
  | S n' =>
    let upper := hexchar_to_int (nth 0 ptr NUL) in
    let lower := hexchar_to_int (nth 1 ptr NUL) in
    if (upper <? 0) || (lower <? 0) then (false, uuid)
    else
      let uuid := store uuid i (hexpair upper lower) in
      let ptr := skipn 2 ptr in
      if dash_after i then
        if negb (Ascii.eqb (nth 0 ptr NUL) "-") then (false, uuid)
        else unhexlify_dashed n' (S i) (skipn 1 ptr) uuid
      else unhexlify_dashed n' (S i) ptr uuid
  end.

(** [uuid_unhexlify], lines 78-134.  [length] is the [int] parameter. *)
Definition uuid_unhexlify (str : list char) (length : Z) (uuid : list char)
  : bool * list char :=
  if length =? 32 then unhexlify_plain 16 0 str uuid
  else
    let '(str, length) :=
      if (length =? 38) && Ascii.eqb (nth 0 str NUL) "{"
         && Ascii.eqb (nth 37 str NUL) "}"
      then (skipn 1 str, length - 2)
      else (str, length) in
    if length =? 36 then unhexlify_dashed 16 0 str uuid
    else (false, uuid).

(** ** Binary to text *)

(** The loop of [uuid_hexlify] (lines 141-152); [n] is [16 - i]. *)
Fixpoint hexlify_loop (n i j : nat) (uuid out : list char) : list char :=
  match n with
  | O => out
  | S n' =>
    let b := int_of_char (nth i uuid NUL) in
    let out := store out j (hexdigit (Z.land (Z.shiftr b 4) 15)) in
    let j := S j in
    let out := store out j (hexdigit (Z.land b 15)) in
    let j := S j in
    if dash_after i then
      let out := store out j "-"%char in
      hexlify_loop n' (S i) (S j) uuid out
    else hexlify_loop n' (S i) j uuid out
  end.

(** [uuid_hexlify], lines 136-153: the contents of [out] afterwards. *)
Definition uuid_hexlify (uuid out : list char) : list char :=
  hexlify_loop 16 0 0 uuid out.

(** ** The host interface *)

(** [enum Item_result] of the host's headers. *)
Inductive Item_result : Type :=
  | STRING_RESULT | REAL_RESULT | INT_RESULT | ROW_RESULT | DECIMAL_RESULT.

Definition Item_result_eqb (a b : Item_result) : bool :=
  match a, b with
  | STRING_RESULT, STRING_RESULT | REAL_RESULT, REAL_RESULT
  | INT_RESULT, INT_RESULT | ROW_RESULT, ROW_RESULT
  | DECIMAL_RESULT, DECIMAL_RESULT => true
  | _, _ => false
  end.

(** One argument of a call: the triple [arg_type[i]], [args[i]], [lengths[i]]
    as the host fills it.  [None] is the NULL pointer of an absent (SQL NULL)
    value; character data carries [lengths[i]] bytes, an integer is the
    [long long] that [args[i]] points to.  The source never looks at the
    value of a REAL argument, so only its presence is kept; a DECIMAL
    argument is handed over as characters. *)
Inductive udf_arg : Type :=
  | StringArg (v : option (list char))
  | IntArg (v : option Z)
  | RealArg (v : option unit)
  | DecimalArg (v : option (list char)).

(** [UDF_ARGS]: [arg_count] is the number of entries. *)
Definition UDF_ARGS : Type := list udf_arg.

Definition arg_count (args : UDF_ARGS) : Z := Z.of_nat (List.length args).

Definition arg_type (a : udf_arg) : Item_result :=
  match a with
  | StringArg _ => STRING_RESULT
  | IntArg _ => INT_RESULT
  | RealArg _ => REAL_RESULT
  | DecimalArg _ => DECIMAL_RESULT
  end.

(** [args->args[i] == NULL]. *)
Definition is_NULL (a : udf_arg) : bool :=
  match a with
  | StringArg None | IntArg None | RealArg None | DecimalArg None => true
  | _ => false
  end.

(** The [lengths[i]] characters at [args[i]], when it points to characters. *)
Definition chars_at (a : udf_arg) : option (list char) :=
  match a with
  | StringArg v | DecimalArg v => v
  | _ => None
  end.

(** [*reinterpret_cast<long long*>(args->args[i])], when it points to one. *)
Definition longlong_at (a : udf_arg) : option Z :=
  match a with
  | IntArg v => v
  | _ => None
  end.

(** The fields of [UDF_INIT] the source assigns. *)
Record UDF_INIT : Type := mkInit {
  maybe_null : bool;
  max_length : Z;
  const_item : bool
}.

(** What a per-row call leaves behind: the returned value and the two flags
    (the host clears both before the call). *)
Record udf_out (A : Type) : Type := mkOut {
  retval : A;
  is_null : bool;
  is_error : bool
}.
Arguments mkOut {A} _ _ _.
Arguments retval {A} _.
Arguments is_null {A} _.
Arguments is_error {A} _.

(** The per-row functions are partial: [None] stands for a call whose
    behaviour the source does not define (no first argument, a NULL or
    non-integer flag dereferenced as [long long], a first argument that is
    not character data).  The [_init] functions refuse the last two of
    these shapes by type, except for a NULL flag. *)
Notation "x <- e ;; k" :=
  (match e with Some x => k | None => None end)
  (at level 61, e at next level, right associativity).

(** The result buffer the host passes in. *)
Definition result_buffer : list char := repeat NUL 255.

(** *** IS_UUID *)

(** [is_uuid_init], lines 183-192: the status, [initid] and [message]
    afterwards. *)
Definition is_uuid_init (initid : UDF_INIT) (args : UDF_ARGS) (message : string)
  : Z * UDF_INIT * string :=
  if negb (arg_count args =? 1) then
    (1, initid, "IS_UUID requires one argument")
  else
    (0, mkInit (maybe_null initid) (max_length initid) true, message).

(** [is_uuid], lines 199-219. *)
Definition is_uuid (args : UDF_ARGS) : option (udf_out Z) :=
  a0 <- nth_error args 0 ;;
  if is_NULL a0 then Some (mkOut 0 true false)
  else if negb (Item_result_eqb (arg_type a0) STRING_RESULT) then
    Some (mkOut 0 false false)
  else
    str <- chars_at a0 ;;
    let '(ok, data) :=
      uuid_unhexlify str (to_int (Z.of_nat (List.length str))) (uninit 16) in
    Some (mkOut (if ok then 1 else 0) false false).

(** *** UUID_TO_BIN *)

(** [uuid_to_bin_init], lines 226-247. *)
Definition uuid_to_bin_init (initid : UDF_INIT) (args : UDF_ARGS) (message : string)
  : Z * UDF_INIT * string :=
  if (arg_count args <? 1) || (arg_count args >? 2) then
    (1, initid, "UUID_TO_BIN requires either one or two arguments")
  else if negb (Item_result_eqb (arg_type (nth 0 args (StringArg None))) STRING_RESULT) then
    (1, initid, "UUID_TO_BIN requires first argument as string")
  else if (arg_count args =? 2)
          && negb (Item_result_eqb (arg_type (nth 1 args (IntArg None))) INT_RESULT) then
    (1, initid, "UUID_TO_BIN requires second argument as integer")
  else
    (0, mkInit true 16 true, message).

(** [bool swap_flag = args->arg_count == 2 ? *(long long* )args->args[1] : false]. *)
Definition read_swap_flag (args : UDF_ARGS) : option bool :=
  if arg_count args =? 2 then
    a1 <- nth_error args 1 ;;
    n <- longlong_at a1 ;;
    Some (negb (n =? 0))
  else Some false.

(** [uuid_to_bin], lines 254-280.  The returned pointer is [None] for NULL
    and otherwise the [*length] bytes at [result]. *)
Definition uuid_to_bin (args : UDF_ARGS) : option (udf_out (option (list char))) :=
  a0 <- nth_error args 0 ;;
  if is_NULL a0 then Some (mkOut None true false)
  else
    swap_flag <- read_swap_flag args ;;
    str <- chars_at a0 ;;
    let '(ok, data) :=
      uuid_unhexlify str (to_int (Z.of_nat (List.length str))) (uninit 16) in
    if negb ok then Some (mkOut None false true)
    else
      let data := if swap_flag then swap_ts data else data in
      let result := memcpy result_buffer 0 data 0 16 in
      let length := 16%nat in
      Some (mkOut (Some (firstn length result)) false false).

(** *** BIN_TO_UUID *)

(** [bin_to_uuid_init], lines 287-308. *)
Definition bin_to_uuid_init (initid : UDF_INIT) (args : UDF_ARGS) (message : string)
  : Z * UDF_INIT * string :=
  if (arg_count args <? 1) || (arg_count args >? 2) then
    (1, initid, "BIN_TO_UUID requires either one or two arguments")
  else if negb (Item_result_eqb (arg_type (nth 0 args (StringArg None))) STRING_RESULT) then
    (1, initid, "BIN_TO_UUID requires first argument as binary")
  else if (arg_count args =? 2)
          && negb (Item_result_eqb (arg_type (nth 1 args (IntArg None))) INT_RESULT) then
    (1, initid, "BIN_TO_UUID requires second argument as integer")
  else
    (0, mkInit true 36 false, message).

(** [bin_to_uuid], lines 315-340. *)
Definition bin_to_uuid (args : UDF_ARGS) : option (udf_out (option (list char))) :=
  a0 <- nth_error args 0 ;;
  if is_NULL a0 then Some (mkOut None true false)
  else
    bin <- chars_at a0 ;;
    if negb (Z.of_nat (List.length bin) =? 16) then Some (mkOut None false true)
    else
      swap_flag <- read_swap_flag args ;;
      let data := memcpy (uninit 16) 0 bin 0 16 in
      let data := if swap_flag then unswap_ts data else data in
      let result := uuid_hexlify data result_buffer in
      let length := 36%nat in
      Some (mkOut (Some (firstn length result)) false false).

(** A call as SQL writes it: [f(x)] when [flag] is [None], [f(x, n)] when it
    is [Some n]; [x = None] is an absent first argument. *)
Definition call (x : option (list char)) (flag : option Z) : UDF_ARGS :=
  StringArg x :: match flag with
                 | None => []
                 | Some n => [IntArg (Some n)]
                 end.

(** The truth value of a flag: [false] when omitted. *)
Definition flag_set (flag : option Z) : bool :=
  match flag with
  | None => false
  | Some n => negb (n =? 0)
  end.

(** The nested SQL calls of the README tests:
    [BIN_TO_UUID(UUID_TO_BIN(t, f), g)] and [UUID_TO_BIN(BIN_TO_UUID(b, f), g)].
    The value (or NULL) the inner call returns is the first argument of the
    outer one. *)
Definition decode_encode (t : list char) (f g : option Z)
  : option (udf_out (option (list char))) :=
  r <- uuid_to_bin (call (Some t) f) ;;
  bin_to_uuid (call (retval r) g).

Definition encode_decode (b : list char) (f g : option Z)
  : option (udf_out (option (list char))) :=
  r <- bin_to_uuid (call (Some b) f) ;;
  uuid_to_bin (call (retval r) g).

(** *** Teardown *)

(** [is_uuid_deinit], [uuid_to_bin_deinit] and [bin_to_uuid_deinit]
    (lines 194-197, 249-252, 310-313) only mention [initid]. *)
Definition is_uuid_deinit (initid : UDF_INIT) : UDF_INIT := initid.
Definition uuid_to_bin_deinit (initid : UDF_INIT) : UDF_INIT := initid.
Definition bin_to_uuid_deinit (initid : UDF_INIT) : UDF_INIT := initid.

(** The two argument lists [f(text)] and [f(text, integer)], by type only:
    either argument may be absent. *)
Definition text_then_flag (args : UDF_ARGS) : bool :=
  match args with
  | [StringArg _] | [StringArg _; IntArg _] => true
  | _ => false
  end.

(** ** The specification's vocabulary *)

(** Form 1: 32 hex characters, no separators. *)
Definition is_form1 (t : list char) : bool :=
  (List.length t =? 32)%nat && forallb is_hex t.

(** Form 2: 36 characters, a dash at positions 8, 13, 18 and 23 and a hex
    digit everywhere else (8-4-4-4-12). *)
Definition form2_char (k : nat) (c : char) : bool :=
  match k with
  | 8%nat | 13%nat | 18%nat | 23%nat => Ascii.eqb c "-"
  | _ => is_hex c
  end.

Fixpoint form2_from (k : nat) (t : list char) : bool :=
  match t with
  | [] => true
  | c :: t' => form2_char k c && form2_from (S k) t'
  end.

Definition is_form2 (t : list char) : bool :=
  (List.length t =? 36)%nat && form2_from 0 t.

(** Form 3: form 2 between a leading '{' and a trailing '}'. *)
Definition is_form3 (t : list char) : bool :=
  match t with
  | [] => false
  | c :: r =>
    Ascii.eqb c "{" && Ascii.eqb (last r NUL) "}" && is_form2 (removelast r)
  end.

Definition isValidUuidText (t : list char) : bool :=
  is_form1 t || is_form2 t || is_form3 t.

(** Lower case of a character. *)
Definition to_lower (c : char) : char :=
  match index_of c (chars "ABCDEFGHIJKLMNOPQRSTUVWXYZ") with
  | Some k => nth (Z.to_nat k) (chars "abcdefghijklmnopqrstuvwxyz") NUL
  | None => c
  end.

(** 32 hex digits grouped 8-4-4-4-12 with dashes. *)
Definition dashed (h : list char) : list char :=
  firstn 8 h ++ "-"%char :: firstn 4 (skipn 8 h) ++ "-"%char
    :: firstn 4 (skipn 12 h) ++ "-"%char :: firstn 4 (skipn 16 h) ++ "-"%char
    :: skipn 20 h.

(** The canonical text form of a valid text: its hex digits (braces and
    dashes dropped), in lower case, dashed. *)
Definition canonical (t : list char) : list char :=
  dashed (map to_lower (filter is_hex t)).

(** The byte two hex characters denote. *)
Definition hexPairToByte (a b : char) : char :=
  char_of_int (16 * hexCharToValue a + hexCharToValue b).

Fixpoint bytes_of_hex (h : list char) : list char :=
  match h with
  | a :: b :: h' => hexPairToByte a b :: bytes_of_hex h'
  | _ => []
  end.

(** The 16 bytes a valid text denotes, in the order of its hex pairs:
    time_low(4) time_mid(2) time_hi(2) clock_seq(2) node(6). *)
Definition uuid_bytes (t : list char) : list char :=
  bytes_of_hex (filter is_hex t).

(** The two lower-case hex digits of a byte, most significant first. *)
Definition byteToHexPair (c : char) : list char :=
  let n := N.to_nat (N_of_ascii c) in
  [nth (n / 16) hexdigits NUL; nth (n mod 16) hexdigits NUL].

Definition hex_of_bytes (b : list char) : list char :=
  flat_map byteToHexPair b.

(** A lower-case hex digit. *)
Definition is_lower_hex (c : char) : bool :=
  existsb (Ascii.eqb c) hexdigits.

(** ** Facts about the hex primitives *)

(** Every property of a single character is decided by running through the
    256 characters. *)
Ltac by_all_chars c :=
  destruct c as [[] [] [] [] [] [] [] []]; vm_compute; try reflexivity; try discriminate.

Lemma hexchar_to_int_table : forall c : char,
  hexchar_to_int c = hexCharToValue c.
Proof. intro c. by_all_chars c. Qed.

(** C9: [hexchar_to_int] maps '0'..'9' to 0-9, 'a'..'f' and 'A'..'F' to
    10-15, and every other character to the invalid value -1: it agrees
    everywhere with the specification's table [hexCharToValue]; and it does
    not tell a letter from its lower case. *)
Theorem hexchar_to_int_spec : forall c : char,
  hexchar_to_int c = hexCharToValue c /\
  hexchar_to_int (to_lower c) = hexchar_to_int c.
Proof. intro c. by_all_chars c; split; reflexivity. Qed.

Example hexchar_to_int_samples :
  map hexchar_to_int (chars "09afAFgG/:@`") = [0; 9; 10; 15; 10; 15; -1; -1; -1; -1; -1; -1].
Proof. reflexivity. Qed.

(** [is_hex] is exactly the set on which [hexchar_to_int] succeeds. *)
Lemma is_hex_spec : forall c : char,
  (hexchar_to_int c <? 0) = negb (is_hex c).
Proof. intro c. by_all_chars c. Qed.

Lemma hexchar_to_int_range : forall c : char,
  is_hex c = true -> 0 <= hexchar_to_int c < 16.
Proof. intro c. by_all_chars c; intros _; split; discriminate || reflexivity. Qed.

Lemma hexdigit_hexchar_to_int : forall c : char,
  is_hex c = true -> hexdigit (hexchar_to_int c) = to_lower c.
Proof. intro c. by_all_chars c. Qed.

Ltac nibble_cases u :=
  destruct u as [|u|u]; try lia;
  do 4 (try destruct u as [u|u|]; try lia).

(** The two nibbles packed by [hexpair] come back out of the stored [char]. *)
Lemma hexpair_nibbles : forall u l : Z,
  0 <= u < 16 -> 0 <= l < 16 ->
  Z.land (Z.shiftr (int_of_char (hexpair u l)) 4) 15 = u /\
  Z.land (int_of_char (hexpair u l)) 15 = l.
Proof.
  intros u l Hu Hl. nibble_cases u; nibble_cases l; split; reflexivity.
Qed.

Lemma hexpair_spec : forall a b : char,
  is_hex a = true -> is_hex b = true ->
  hexpair (hexchar_to_int a) (hexchar_to_int b) = hexPairToByte a b.
Proof.
  intros a b Ha Hb. unfold hexPairToByte. rewrite <- !hexchar_to_int_table.
  pose proof (hexchar_to_int_range a Ha) as Ra.
  pose proof (hexchar_to_int_range b Hb) as Rb.
  revert Ra Rb. generalize (hexchar_to_int a) (hexchar_to_int b).
  intros u l Hu Hl. nibble_cases u; nibble_cases l; reflexivity.
Qed.

(** What [uuid_hexlify] writes for a byte reads back as that byte. *)
Lemma hexdigit_pair_inverse : forall c : char,
  let hi := hexdigit (Z.land (Z.shiftr (int_of_char c) 4) 15) in
  let lo := hexdigit (Z.land (int_of_char c) 15) in
  is_hex hi = true /\ is_hex lo = true /\
  to_lower hi = hi /\ to_lower lo = lo /\
  hexpair (hexchar_to_int hi) (hexchar_to_int lo) = c.
Proof. intro c. by_all_chars c; repeat split. Qed.

(** ** The timestamp transforms *)

Ltac explode_list l :=
  repeat (destruct l as [|? l]; try discriminate).

(** C5: [swap_ts] moves time_hi (bytes 6-7) to offsets 0-1, time_mid
    (bytes 4-5) to offsets 2-3 and time_low (bytes 0-3) to offsets 4-7,
    each field in its own byte order, and leaves bytes 8-15 where they are. *)
Theorem swap_ts_fields :
  forall b0 b1 b2 b3 b4 b5 b6 b7 b8 b9 b10 b11 b12 b13 b14 b15 : char,
  swap_ts [b0; b1; b2; b3; b4; b5; b6; b7; b8; b9; b10; b11; b12; b13; b14; b15]
  = [b6; b7; b4; b5; b0; b1; b2; b3; b8; b9; b10; b11; b12; b13; b14; b15].
Proof. intros. reflexivity. Qed.

Lemma swap_ts_fields_eq :
  forall b0 b1 b2 b3 b4 b5 b6 b7 b8 b9 b10 b11 b12 b13 b14 b15 : char,
  swap_ts [b0; b1; b2; b3; b4; b5; b6; b7; b8; b9; b10; b11; b12; b13; b14; b15]
  = [b6; b7; b4; b5; b0; b1; b2; b3; b8; b9; b10; b11; b12; b13; b14; b15].
Proof. intros. reflexivity. Qed.

Lemma unswap_ts_fields :
  forall b0 b1 b2 b3 b4 b5 b6 b7 b8 b9 b10 b11 b12 b13 b14 b15 : char,
  unswap_ts [b0; b1; b2; b3; b4; b5; b6; b7; b8; b9; b10; b11; b12; b13; b14; b15]
  = [b4; b5; b6; b7; b2; b3; b0; b1; b8; b9; b10; b11; b12; b13; b14; b15].
Proof. intros. reflexivity. Qed.

Lemma swap_ts_length : forall x, List.length x = 16%nat ->
  List.length (swap_ts x) = 16%nat.
Proof. intros x H. explode_list x. reflexivity. Qed.

Lemma unswap_ts_length : forall x, List.length x = 16%nat ->
  List.length (unswap_ts x) = 16%nat.
Proof. intros x H. explode_list x. reflexivity. Qed.

Lemma unswap_swap : forall x, List.length x = 16%nat -> unswap_ts (swap_ts x) = x.
Proof. intros x H. explode_list x. reflexivity. Qed.

Lemma swap_unswap : forall x, List.length x = 16%nat -> swap_ts (unswap_ts x) = x.
Proof. intros x H. explode_list x. reflexivity. Qed.

(** C1: on every 16-byte buffer [unswap_ts] undoes [swap_ts] and [swap_ts]
    undoes [unswap_ts]; neither writes bytes 8-15 (they come out as they went
    in) and neither reads them (the first eight bytes of the result are
    determined by the first eight bytes of the input). *)
Theorem swap_ts_unswap_ts_inverse : forall x : list char,
  List.length x = 16%nat ->
  unswap_ts (swap_ts x) = x /\
  swap_ts (unswap_ts x) = x /\
  skipn 8 (swap_ts x) = skipn 8 x /\
  skipn 8 (unswap_ts x) = skipn 8 x /\
  (forall y : list char, List.length y = 16%nat -> firstn 8 y = firstn 8 x ->
     firstn 8 (swap_ts y) = firstn 8 (swap_ts x) /\
     firstn 8 (unswap_ts y) = firstn 8 (unswap_ts x)).
Proof.
  intros x Hx. split; [now apply unswap_swap|]. split; [now apply swap_unswap|].
  explode_list x. split; [reflexivity|]. split; [reflexivity|].
  intros y Hy. explode_list y. cbn [firstn]. intros E.
  injection E as -> -> -> -> -> -> -> ->. split; reflexivity.
Qed.

Lemma swap_ts_unswap_ts_inverse_witness :
  let x := chars "0123456789abcdef" in
  unswap_ts (swap_ts x) = x /\ swap_ts (unswap_ts x) = x.
Proof.
  intro x.
  destruct (swap_ts_unswap_ts_inverse x eq_refl) as (H1 & H2 & _).
  split; assumption.
Defined.

(** ** The parser *)

Lemma unhexlify_plain_step : forall n i a b ptr uuid,
  unhexlify_plain (S n) i (a :: b :: ptr) uuid =
  if is_hex a && is_hex b
  then unhexlify_plain n (S i) ptr
         (store uuid i (hexpair (hexchar_to_int a) (hexchar_to_int b)))
  else (false, uuid).
Proof.
  intros. cbn [unhexlify_plain nth skipn]. rewrite !is_hex_spec.
  destruct (is_hex a), (is_hex b); reflexivity.
Qed.

Lemma unhexlify_dashed_step : forall n i a b ptr uuid,
  dash_after i = false ->
  unhexlify_dashed (S n) i (a :: b :: ptr) uuid =
  if is_hex a && is_hex b
  then unhexlify_dashed n (S i) ptr
         (store uuid i (hexpair (hexchar_to_int a) (hexchar_to_int b)))
  else (false, uuid).
Proof.
  intros n i a b ptr uuid Hi. cbn [unhexlify_dashed nth skipn]. rewrite Hi, !is_hex_spec.
  destruct (is_hex a), (is_hex b); reflexivity.
Qed.

Lemma unhexlify_dashed_step_dash : forall n i a b d ptr uuid,
  dash_after i = true ->
  unhexlify_dashed (S n) i (a :: b :: d :: ptr) uuid =
  if is_hex a && is_hex b
  then
    if Ascii.eqb d "-"
    then unhexlify_dashed n (S i) ptr
           (store uuid i (hexpair (hexchar_to_int a) (hexchar_to_int b)))
    else (false, store uuid i (hexpair (hexchar_to_int a) (hexchar_to_int b)))
  else (false, uuid).
Proof.
  intros n i a b d ptr uuid Hi. cbn [unhexlify_dashed nth skipn]. rewrite Hi, !is_hex_spec.
  destruct (is_hex a), (is_hex b), (Ascii.eqb d "-"); reflexivity.
Qed.

Lemma fst_if_false : forall (b : bool) (x : bool * list char) (u : list char),
  fst (if b then x else (false, u)) = b && fst x.
Proof. intros [] x u; reflexivity. Qed.

(** The plain loop succeeds exactly on hex digits, whatever the buffer. *)
Lemma unhexlify_plain_ok : forall n i ptr uuid,
  List.length ptr = (2 * n)%nat ->
  fst (unhexlify_plain n i ptr uuid) = forallb is_hex ptr.
Proof.
  induction n as [|n IH]; intros i ptr uuid Hlen.
  - destruct ptr; [reflexivity | discriminate].
  - destruct ptr as [|a [|b ptr]]; try (cbn in Hlen; lia).
    rewrite unhexlify_plain_step, fst_if_false, IH by (cbn in Hlen; lia).
    cbn [forallb]. now rewrite andb_assoc.
Qed.

Ltac unroll_dashed :=
  repeat first
    [ rewrite unhexlify_dashed_step by reflexivity
    | rewrite unhexlify_dashed_step_dash by reflexivity ].

(** The dashed loop succeeds exactly on form 2. *)
Lemma unhexlify_dashed_ok : forall ptr uuid,
  List.length ptr = 36%nat ->
  fst (unhexlify_dashed 16 0 ptr uuid) = form2_from 0 ptr.
Proof.
  intros ptr uuid Hlen. explode_list ptr. clear Hlen.
  unroll_dashed. rewrite !fst_if_false.
  cbn [unhexlify_dashed fst form2_from form2_char].
  rewrite !andb_true_r, !andb_assoc. reflexivity.
Qed.

Lemma unhexlify_dashed_prefix : forall ptr uuid,
  (36 <= List.length ptr)%nat ->
  fst (unhexlify_dashed 16 0 ptr uuid) = form2_from 0 (firstn 36 ptr).
Proof.
  intros ptr uuid Hlen.
  rewrite <- (firstn_skipn 36 ptr) at 1.
  assert (H36 : List.length (firstn 36 ptr) = 36%nat) by (rewrite length_firstn; lia).
  revert H36. generalize (skipn 36 ptr) as rest. generalize (firstn 36 ptr) as p.
  intros p rest Hp. explode_list p. clear Hp. cbn [app].
  unroll_dashed. rewrite !fst_if_false.
  cbn [unhexlify_dashed fst form2_from form2_char].
  rewrite !andb_true_r, !andb_assoc. reflexivity.
Qed.

(** *** Lengths of the three forms *)

Lemma is_form1_length : forall t, is_form1 t = true -> List.length t = 32%nat.
Proof.
  unfold is_form1. intros t H. apply andb_prop in H. now apply Nat.eqb_eq.
Qed.

Lemma is_form2_length : forall t, is_form2 t = true -> List.length t = 36%nat.
Proof.
  unfold is_form2. intros t H. apply andb_prop in H. now apply Nat.eqb_eq.
Qed.

Lemma is_form3_length : forall t, is_form3 t = true -> List.length t = 38%nat.
Proof.
  unfold is_form3. intros [|c r] H; [discriminate|].
  apply andb_prop in H. destruct H as [_ H]. apply is_form2_length in H.
  destruct r as [|x r]; [discriminate|].
  rewrite (app_removelast_last NUL (l := x :: r)) by discriminate.
  cbn [List.length]. rewrite length_app, H. reflexivity.
Qed.

Lemma isValidUuidText_length : forall t, isValidUuidText t = true ->
  List.length t = 32%nat \/ List.length t = 36%nat \/ List.length t = 38%nat.
Proof.
  unfold isValidUuidText. intros t H.
  destruct (is_form1 t) eqn:H1; [left; now apply is_form1_length|].
  destruct (is_form2 t) eqn:H2; [right; left; now apply is_form2_length|].
  right; right. now apply is_form3_length.
Qed.

Lemma is_form_by_length : forall t,
  (is_form1 t = true -> is_form2 t = false /\ is_form3 t = false) /\
  (is_form2 t = true -> is_form1 t = false /\ is_form3 t = false) /\
  (is_form3 t = true -> is_form1 t = false /\ is_form2 t = false).
Proof.
  intro t.
  destruct (is_form1 t) eqn:H1, (is_form2 t) eqn:H2, (is_form3 t) eqn:H3;
    repeat split; try reflexivity; try discriminate; exfalso;
    try apply is_form1_length in H1; try apply is_form2_length in H2;
    try apply is_form3_length in H3; congruence.
Qed.

Lemma is_form3_iff : forall t,
  is_form3 t = true <->
  exists t', t = ("{"%char :: t' ++ ["}"%char])%list /\ is_form2 t' = true.
Proof.
  intro t. split.
  - unfold is_form3. destruct t as [|c r]; [discriminate|]. intro H.
    apply andb_prop in H. destruct H as [H H2].
    apply andb_prop in H. destruct H as [Ho Hc].
    apply Ascii.eqb_eq in Ho. apply Ascii.eqb_eq in Hc. subst c.
    exists (removelast r). split; [|assumption].
    destruct r as [|x r]; [discriminate|].
    rewrite <- Hc. f_equal. apply app_removelast_last. discriminate.
  - intros (t' & -> & H). unfold is_form3.
    rewrite last_last, removelast_last, H. reflexivity.
Qed.

Lemma is_form1_iff : forall t,
  is_form1 t = true <-> List.length t = 32%nat /\ Forall (fun c => is_hex c = true) t.
Proof.
  intro t. unfold is_form1. rewrite andb_true_iff, Nat.eqb_eq, forallb_forall, Forall_forall.
  reflexivity.
Qed.

(** Form 2 spelled out: five groups of 8, 4, 4, 4 and 12 hex digits with a
    dash between neighbours. *)
Lemma is_form2_iff : forall t,
  is_form2 t = true <->
  exists a b c d e : list char,
    t = (a ++ "-"%char :: b ++ "-"%char :: c ++ "-"%char :: d ++ "-"%char :: e)%list /\
    List.length a = 8%nat /\ List.length b = 4%nat /\ List.length c = 4%nat /\
    List.length d = 4%nat /\ List.length e = 12%nat /\
    forallb is_hex (a ++ b ++ c ++ d ++ e) = true.
Proof.
  intro t. split.
  - intro H. pose proof (is_form2_length _ H) as L.
    unfold is_form2 in H. rewrite L in H. cbn [Nat.eqb andb] in H.
    explode_list t. clear L. cbn [form2_from form2_char] in H.
    repeat (let Hc := fresh "Hc" in apply andb_prop in H; destruct H as [Hc H]).
    repeat match goal with
    | E : Ascii.eqb _ _ = true |- _ => apply Ascii.eqb_eq in E; subst
    end.
    match goal with
    | |- context [[?a0; ?a1; ?a2; ?a3; ?a4; ?a5; ?a6; ?a7; _;
                   ?b0; ?b1; ?b2; ?b3; _; ?c0; ?c1; ?c2; ?c3; _;
                   ?d0; ?d1; ?d2; ?d3; _;
                   ?e0; ?e1; ?e2; ?e3; ?e4; ?e5; ?e6; ?e7; ?e8; ?e9; ?e10; ?e11]] =>
        exists [a0; a1; a2; a3; a4; a5; a6; a7], [b0; b1; b2; b3],
               [c0; c1; c2; c3], [d0; d1; d2; d3],
               [e0; e1; e2; e3; e4; e5; e6; e7; e8; e9; e10; e11]
    end.
    repeat (split; [reflexivity|]). cbn [app forallb].
    repeat match goal with
    | E : is_hex ?x = true |- context [is_hex ?x] => rewrite E
    end.
    reflexivity.
  - intros (a & b & c & d & e & -> & La & Lb & Lc & Ld & Le & H).
    explode_list a. explode_list b. explode_list c. explode_list d. explode_list e.
    cbn [app forallb] in H.
    repeat (let Hc := fresh "Hc" in apply andb_prop in H; destruct H as [Hc H]).
    unfold is_form2. cbn [app List.length Nat.eqb andb form2_from form2_char].
    repeat match goal with
    | E : is_hex ?x = true |- context [is_hex ?x] => rewrite E
    end.
    reflexivity.
Qed.

(** *** The [int] length *)

(** The narrowing of [lengths[0]] keeps every length a host string can have
    apart from 32, 36 and 38; it would not beyond 2^32. *)
Remark to_int_wraps : to_int (2 ^ 32 + 32) = 32.
Proof. reflexivity. Qed.


Lemma to_int_of_length : forall n : nat,
  Z.of_nat n < 2 ^ 32 ->
  forall k : Z, 0 <= k < 2 ^ 31 ->
  (to_int (Z.of_nat n) =? k) = (Z.of_nat n =? k).
Proof.
  intros n Hn k Hk. unfold to_int.
  rewrite Z.mod_small by lia.
  destruct (Z.of_nat n <? 2 ^ 31) eqn:E; [reflexivity|].
  apply Z.ltb_ge in E.
  destruct (Z.eqb_spec (Z.of_nat n - 2 ^ 32) k), (Z.eqb_spec (Z.of_nat n) k);
    try reflexivity; lia.
Qed.

(** [uuid_unhexlify] returns [true] exactly on the three accepted forms. *)
Lemma uuid_unhexlify_valid : forall (t uuid : list char),
  Z.of_nat (List.length t) < 2 ^ 32 ->
  fst (uuid_unhexlify t (to_int (Z.of_nat (List.length t))) uuid)
  = isValidUuidText t.
Proof.
  intros t uuid Hlen. unfold uuid_unhexlify.
  rewrite !(to_int_of_length _ Hlen) by lia.
  destruct (Z.eqb_spec (Z.of_nat (List.length t)) 32) as [E32|N32].
  { assert (L : List.length t = 32%nat) by lia.
    rewrite unhexlify_plain_ok by (rewrite L; reflexivity).
    unfold isValidUuidText.
    destruct (is_form2 t) eqn:H2; [apply is_form2_length in H2; congruence|].
    destruct (is_form3 t) eqn:H3; [apply is_form3_length in H3; congruence|].
    unfold is_form1. rewrite L. cbn. now rewrite !orb_false_r. }
  destruct (Z.eqb_spec (Z.of_nat (List.length t)) 38) as [E38|N38].
  { assert (L : List.length t = 38%nat) by lia.
    unfold isValidUuidText.
    destruct (is_form1 t) eqn:H1; [apply is_form1_length in H1; congruence|].
    destruct (is_form2 t) eqn:H2; [apply is_form2_length in H2; congruence|].
    cbn [orb andb]. clear H1 H2 Hlen E38 N32.
    explode_list t. clear L.
    unfold is_form3, is_form2.
    cbn [nth skipn last removelast List.length Nat.eqb andb].
    change (to_int (Z.of_nat 38)) with 38.
    match goal with
    | |- context [Ascii.eqb ?x "{"] => destruct (Ascii.eqb x "{")
    end; [|reflexivity].
    match goal with
    | |- context [Ascii.eqb ?x "}"] => destruct (Ascii.eqb x "}")
    end; [|reflexivity].
    cbn [andb]. change (38 - 2 =? 36) with true. cbv beta iota.
    rewrite unhexlify_dashed_prefix by (cbn; lia). reflexivity. }
  destruct (Z.eqb_spec (Z.of_nat (List.length t)) 36) as [E36|N36].
  { assert (L : List.length t = 36%nat) by lia.
    cbn [andb]. rewrite (to_int_of_length _ Hlen) by lia.
    rewrite E36. cbn [Z.eqb Pos.eqb].
    rewrite unhexlify_dashed_prefix by lia.
    rewrite firstn_all2 by lia.
    unfold isValidUuidText.
    destruct (is_form1 t) eqn:H1; [apply is_form1_length in H1; congruence|].
    destruct (is_form3 t) eqn:H3; [apply is_form3_length in H3; congruence|].
    unfold is_form2. rewrite L. cbn. now rewrite orb_false_r. }
  cbn [andb]. rewrite (to_int_of_length _ Hlen) by lia.
  destruct (Z.eqb_spec (Z.of_nat (List.length t)) 36); [contradiction|].
  cbn [fst]. symmetry. apply not_true_is_false. intro V.
  apply isValidUuidText_length in V. lia.
Qed.

(** ** The formatter *)

Lemma hexlify_byte : forall c : char,
  [hexdigit (Z.land (Z.shiftr (int_of_char c) 4) 15);
   hexdigit (Z.land (int_of_char c) 15)] = byteToHexPair c.
Proof. intro c. by_all_chars c. Qed.

Lemma hexlify_pair_eq : forall (c x y : char),
  byteToHexPair c = [x; y] ->
  hexdigit (Z.land (Z.shiftr (int_of_char c) 4) 15) = x /\
  hexdigit (Z.land (int_of_char c) 15) = y.
Proof.
  intros c x y H. rewrite <- hexlify_byte in H. injection H as <- <-. now split.
Qed.

(** The 36 characters [uuid_hexlify] leaves at the start of [out], whatever
    [out] held before. *)
Lemma uuid_hexlify_any_buffer : forall b out : list char,
  List.length b = 16%nat -> (36 <= List.length out)%nat ->
  firstn 36 (uuid_hexlify b out) = dashed (hex_of_bytes b).
Proof.
  intros b out Hb Hout. explode_list b. clear Hb.
  rewrite <- (firstn_skipn 36 out).
  assert (H36 : List.length (firstn 36 out) = 36%nat) by (rewrite length_firstn; lia).
  revert H36. generalize (skipn 36 out) as rest. generalize (firstn 36 out) as p.
  intros p rest Hp. explode_list p. clear Hp Hout.
  unfold uuid_hexlify.
  cbn [app hexlify_loop nth dash_after store firstn].
  unfold hex_of_bytes. cbn [flat_map].
  repeat match goal with
  | |- context [byteToHexPair ?c] =>
      let x := fresh "x" in let y := fresh "y" in let E := fresh "E" in
      destruct (byteToHexPair c) as [|x [|y [|? ?]]] eqn:E;
      try discriminate E;
      destruct (hexlify_pair_eq _ _ _ E) as [-> ->]; clear E
  end.
  reflexivity.
Qed.

Lemma uuid_hexlify_spec : forall b : list char,
  List.length b = 16%nat ->
  firstn 36 (uuid_hexlify b result_buffer) = dashed (hex_of_bytes b).
Proof.
  intros b Hb. apply uuid_hexlify_any_buffer; [assumption|].
  unfold result_buffer. rewrite repeat_length. lia.
Qed.

(** ** What the parser stores *)

Ltac atoms H :=
  repeat (let Hc := fresh "Hc" in apply andb_prop in H; destruct H as [Hc H]);
  clear H;
  repeat match goal with
  | E : Ascii.eqb _ _ = true |- _ => apply Ascii.eqb_eq in E; subst
  end.

Ltac use_atoms :=
  repeat match goal with
  | E : is_hex ?c = true |- context [is_hex ?c] => rewrite E
  end.

Lemma is_hex_dash : is_hex "-"%char = false.
Proof. reflexivity. Qed.

Lemma is_hex_braces : is_hex "{"%char = false /\ is_hex "}"%char = false.
Proof. split; reflexivity. Qed.

Lemma filter_is_hex_keep : forall c l,
  is_hex c = true -> filter is_hex (c :: l) = c :: filter is_hex l.
Proof. intros c l H. cbn [filter]. now rewrite H. Qed.

Lemma filter_is_hex_drop : forall c l,
  is_hex c = false -> filter is_hex (c :: l) = filter is_hex l.
Proof. intros c l H. cbn [filter]. now rewrite H. Qed.

Ltac filter_hex :=
  repeat first
    [ rewrite filter_is_hex_keep by assumption
    | rewrite filter_is_hex_drop by reflexivity ];
  change (filter is_hex []) with (@nil char).

Ltac finish_bytes :=
  unfold uuid_bytes; filter_hex; cbn [bytes_of_hex];
  rewrite <- !hexpair_spec by assumption; reflexivity.

Lemma unhexlify_plain_value : forall t uuid,
  is_form1 t = true -> List.length uuid = 16%nat ->
  unhexlify_plain 16 0 t uuid = (true, uuid_bytes t).
Proof.
  intros t uuid H Hu. pose proof (is_form1_length _ H) as L.
  unfold is_form1 in H. rewrite L in H. cbn [Nat.eqb andb] in H.
  explode_list t. clear L. explode_list uuid. clear Hu.
  cbn [forallb] in H. atoms H.
  rewrite !unhexlify_plain_step. use_atoms. cbn [andb unhexlify_plain store].
  f_equal. symmetry. finish_bytes.
Qed.

Lemma unhexlify_dashed_value : forall t rest uuid,
  is_form2 t = true -> List.length uuid = 16%nat ->
  unhexlify_dashed 16 0 (t ++ rest) uuid = (true, uuid_bytes t).
Proof.
  intros t rest uuid H Hu. pose proof (is_form2_length _ H) as L.
  unfold is_form2 in H. rewrite L in H. cbn [Nat.eqb andb] in H.
  explode_list t. clear L. explode_list uuid. clear Hu.
  cbn [form2_from form2_char] in H. atoms H. cbn [app].
  unroll_dashed. use_atoms. cbn [andb unhexlify_dashed store Ascii.eqb Bool.eqb].
  f_equal. symmetry. finish_bytes.
Qed.

Lemma is_form3_inv : forall t, is_form3 t = true ->
  exists t', t = ("{"%char :: t' ++ ["}"%char])%list /\ is_form2 t' = true.
Proof. intro t. apply is_form3_iff. Qed.

Lemma uuid_bytes_braces : forall t,
  uuid_bytes ("{"%char :: t ++ ["}"%char]) = uuid_bytes t.
Proof.
  intro t. unfold uuid_bytes.
  rewrite filter_is_hex_drop by reflexivity.
  rewrite filter_app, (filter_is_hex_drop "}"%char) by reflexivity.
  cbn [filter]. now rewrite app_nil_r.
Qed.

(** On a valid text [uuid_unhexlify] returns [true] and has stored the 16
    bytes the text denotes, whatever the buffer held before. *)
Lemma uuid_unhexlify_value : forall t uuid,
  isValidUuidText t = true -> List.length uuid = 16%nat ->
  uuid_unhexlify t (to_int (Z.of_nat (List.length t))) uuid = (true, uuid_bytes t).
Proof.
  intros t uuid V Hu. unfold isValidUuidText in V.
  destruct (is_form1 t) eqn:H1.
  { rewrite (is_form1_length _ H1). unfold uuid_unhexlify.
    change (to_int (Z.of_nat 32) =? 32) with true. cbv iota.
    now apply unhexlify_plain_value. }
  destruct (is_form2 t) eqn:H2.
  { rewrite (is_form2_length _ H2). unfold uuid_unhexlify.
    change (to_int (Z.of_nat 36)) with 36.
    change (36 =? 32) with false. change (36 =? 38) with false.
    cbn [andb]. cbv iota. change (36 =? 36) with true. cbv iota.
    rewrite <- (app_nil_r t) at 1. now apply unhexlify_dashed_value. }
  cbn [orb] in V. pose proof (is_form3_length _ V) as L.
  rewrite L. unfold uuid_unhexlify.
  change (to_int (Z.of_nat 38)) with 38.
  change (38 =? 32) with false. change (38 =? 38) with true. cbv iota.
  destruct (is_form3_inv _ V) as (t' & -> & V').
  pose proof (is_form2_length _ V') as L'.
  cbn [nth skipn andb Ascii.eqb Bool.eqb].
  rewrite app_nth2, L' by lia. cbn [Nat.sub nth Ascii.eqb Bool.eqb andb].
  change (38 - 2 =? 36) with true. cbv iota.
  rewrite unhexlify_dashed_value by assumption.
  now rewrite uuid_bytes_braces.
Qed.

(** ** Hex digits and bytes *)

Lemma byteToHexPair_hexPairToByte : forall a b : char,
  is_hex a = true -> is_hex b = true ->
  byteToHexPair (hexPairToByte a b) = [to_lower a; to_lower b].
Proof.
  intros a b Ha Hb.
  rewrite <- hexpair_spec, <- hexlify_byte by assumption.
  destruct (hexpair_nibbles _ _ (hexchar_to_int_range a Ha) (hexchar_to_int_range b Hb))
    as [-> ->].
  now rewrite !hexdigit_hexchar_to_int.
Qed.

(** The digits written for a byte are lower-case hex and denote that byte. *)
Lemma byteToHexPair_inv : forall c : char,
  exists x y, byteToHexPair c = [x; y] /\
    is_hex x = true /\ is_hex y = true /\
    is_lower_hex x = true /\ is_lower_hex y = true /\
    hexPairToByte x y = c.
Proof.
  intro c.
  exists (nth 0 (byteToHexPair c) NUL), (nth 1 (byteToHexPair c) NUL).
  by_all_chars c; repeat split.
Qed.

Lemma hex_of_bytes_of_hex : forall n h,
  List.length h = (2 * n)%nat -> forallb is_hex h = true ->
  hex_of_bytes (bytes_of_hex h) = map to_lower h.
Proof.
  induction n as [|n IH]; intros h Hlen Hh.
  - destruct h; [reflexivity | discriminate].
  - destruct h as [|a [|b h]]; try (cbn in Hlen; lia).
    cbn [forallb] in Hh.
    apply andb_prop in Hh. destruct Hh as [Ha Hh].
    apply andb_prop in Hh. destruct Hh as [Hb Hh].
    cbn [bytes_of_hex map]. unfold hex_of_bytes. cbn [flat_map].
    rewrite byteToHexPair_hexPairToByte by assumption.
    cbn [app]. do 2 f_equal. apply IH; [cbn in Hlen; lia | assumption].
Qed.

Lemma bytes_of_hex_of_bytes : forall b, bytes_of_hex (hex_of_bytes b) = b.
Proof.
  induction b as [|c b IH]; [reflexivity|].
  unfold hex_of_bytes. cbn [flat_map].
  destruct (byteToHexPair_inv c) as (x & y & -> & _ & _ & _ & _ & E).
  cbn [app bytes_of_hex]. rewrite E. f_equal. exact IH.
Qed.

Lemma forallb_filter_is_hex : forall t, forallb is_hex (filter is_hex t) = true.
Proof.
  induction t as [|c t IH]; [reflexivity|].
  cbn [filter]. destruct (is_hex c) eqn:E; [|assumption].
  cbn [forallb]. now rewrite E.
Qed.

Lemma filter_is_hex_all : forall t, forallb is_hex t = true -> filter is_hex t = t.
Proof.
  induction t as [|c t IH]; [reflexivity|].
  cbn [forallb]. intro H. apply andb_prop in H. destruct H as [Hc Ht].
  rewrite filter_is_hex_keep by assumption. now rewrite IH.
Qed.

Lemma bytes_of_hex_length : forall n h,
  List.length h = (2 * n)%nat -> List.length (bytes_of_hex h) = n.
Proof.
  induction n as [|n IH]; intros h Hlen.
  - destruct h; [reflexivity | discriminate].
  - destruct h as [|a [|b h]]; try (cbn in Hlen; lia).
    cbn [bytes_of_hex List.length]. f_equal. apply IH. cbn in Hlen. lia.
Qed.

Lemma form2_hex_digits : forall t,
  is_form2 t = true -> List.length (filter is_hex t) = 32%nat.
Proof.
  intros t H. pose proof (is_form2_length _ H) as L.
  unfold is_form2 in H. rewrite L in H. cbn [Nat.eqb andb] in H.
  explode_list t. clear L. cbn [form2_from form2_char] in H. atoms H.
  filter_hex. reflexivity.
Qed.

Section ValidText.

Variable t : list char.
Hypothesis V : isValidUuidText t = true.

(** A valid text carries exactly 32 hex digits. *)
Lemma valid_hex_digits : List.length (filter is_hex t) = 32%nat.
Proof.
  unfold isValidUuidText in V.
  destruct (is_form1 t) eqn:H1.
  { apply is_form1_iff in H1. destruct H1 as [L H1].
    rewrite filter_is_hex_all; [assumption|].
    apply forallb_forall. now apply Forall_forall. }
  destruct (is_form2 t) eqn:H2; [now apply form2_hex_digits|].
  cbn [orb] in V. destruct (is_form3_inv _ V) as (t' & E & V').
  rewrite E, filter_is_hex_drop by reflexivity.
  rewrite filter_app, (filter_is_hex_drop "}"%char) by reflexivity.
  cbn [filter]. rewrite app_nil_r. now apply form2_hex_digits.
Qed.

Lemma uuid_bytes_length : List.length (uuid_bytes t) = 16%nat.
Proof.
  unfold uuid_bytes. apply bytes_of_hex_length. now rewrite valid_hex_digits.
Qed.

(** The text of the bytes of a valid text is its canonical form. *)
Lemma canonical_of_bytes : dashed (hex_of_bytes (uuid_bytes t)) = canonical t.
Proof.
  unfold canonical, uuid_bytes. f_equal.
  apply (hex_of_bytes_of_hex 16).
  - apply valid_hex_digits.
  - apply forallb_filter_is_hex.
Qed.

End ValidText.

Create HintDb len16.
#[local] Hint Resolve swap_ts_length unswap_ts_length uuid_bytes_length : len16.

(** The text written for 16 bytes is in form 2, in lower case, and denotes
    those bytes. *)
Lemma dashed_text_of_bytes : forall d,
  List.length d = 16%nat ->
  is_form2 (dashed (hex_of_bytes d)) = true /\
  forallb (fun c => is_lower_hex c || Ascii.eqb c "-") (dashed (hex_of_bytes d)) = true /\
  uuid_bytes (dashed (hex_of_bytes d)) = d.
Proof.
  intros d Hd. explode_list d. clear Hd.
  unfold hex_of_bytes. cbn [flat_map].
  repeat match goal with
  | |- context [byteToHexPair ?c] =>
      let x := fresh "x" in let y := fresh "y" in
      destruct (byteToHexPair_inv c) as (x & y & -> & ? & ? & ? & ? & ?)
  end.
  cbn [app dashed firstn skipn]. unfold is_form2.
  cbn [List.length Nat.eqb andb form2_from form2_char forallb].
  repeat match goal with
  | E : is_lower_hex ?c = true |- context [is_lower_hex ?c] => rewrite E
  end.
  use_atoms. split; [reflexivity|]. split; [reflexivity|].
  unfold uuid_bytes. filter_hex. cbn [bytes_of_hex]. congruence.
Qed.

(** ** The three functions on a call *)

Lemma read_swap_flag_call : forall x flag,
  read_swap_flag (call x flag) = Some (flag_set flag).
Proof. intros x [n|]; reflexivity. Qed.

Lemma memcpy_prefix : forall (buf d : list char) (n : nat),
  List.length d = n -> firstn n (memcpy buf 0 d 0 n) = d.
Proof.
  intros buf d n Hd. unfold memcpy. cbn [firstn skipn app Nat.add].
  rewrite (firstn_all2 d) by lia.
  rewrite firstn_app, Hd, Nat.sub_diag, firstn_O, app_nil_r.
  apply firstn_all2. lia.
Qed.

Lemma memcpy_all : forall (buf d : list char) (n : nat),
  List.length d = n -> List.length buf = n -> memcpy buf 0 d 0 n = d.
Proof.
  intros buf d n Hd Hb. unfold memcpy. cbn [firstn skipn app Nat.add].
  rewrite (firstn_all2 d), (skipn_all2 buf) by lia.
  apply app_nil_r.
Qed.

(** [uuid_to_bin] on a call with a text (or absent) first argument. *)
Lemma uuid_to_bin_call : forall (x : option (list char)) (flag : option Z),
  uuid_to_bin (call x flag) =
  Some match x with
       | None => mkOut None true false
       | Some t =>
         let '(ok, data) :=
           uuid_unhexlify t (to_int (Z.of_nat (List.length t))) (uninit 16) in
         if ok
         then mkOut (Some (firstn 16 (memcpy result_buffer 0
                        (if flag_set flag then swap_ts data else data) 0 16)))
                    false false
         else mkOut None false true
       end.
Proof.
  intros [t|] flag; [|reflexivity].
  unfold uuid_to_bin. cbn [call nth_error is_NULL chars_at].
  change (StringArg (Some t) :: _) with (call (Some t) flag).
  rewrite read_swap_flag_call.
  destruct (uuid_unhexlify t _ (uninit 16)) as [[] data]; reflexivity.
Qed.

(** On a valid text [uuid_to_bin] returns the 16 bytes it denotes. *)
Lemma uuid_to_bin_valid : forall (t : list char) (flag : option Z),
  isValidUuidText t = true ->
  uuid_to_bin (call (Some t) flag) =
  Some (mkOut (Some (if flag_set flag then swap_ts (uuid_bytes t) else uuid_bytes t))
              false false).
Proof.
  intros t flag V. rewrite uuid_to_bin_call.
  rewrite (uuid_unhexlify_value t (uninit 16) V eq_refl).
  rewrite memcpy_prefix; [reflexivity|].
  destruct (flag_set flag); auto with len16.
Qed.

(** [bin_to_uuid] on a 16-byte value. *)
Lemma bin_to_uuid_16 : forall (b : list char) (flag : option Z),
  List.length b = 16%nat ->
  bin_to_uuid (call (Some b) flag) =
  Some (mkOut (Some (dashed (hex_of_bytes (if flag_set flag then unswap_ts b else b))))
              false false).
Proof.
  intros b flag Hb. unfold bin_to_uuid. cbn [call nth_error is_NULL chars_at].
  rewrite Hb. cbn [Z.of_nat Pos.of_succ_nat Pos.succ Z.eqb Pos.eqb negb].
  change (StringArg (Some b) :: _) with (call (Some b) flag).
  rewrite read_swap_flag_call, memcpy_all by (assumption || reflexivity).
  rewrite uuid_hexlify_spec; [reflexivity|].
  destruct (flag_set flag); auto with len16.
Qed.

(** ** Round trips *)

(** C2: for every text [t] valid in one of the three forms and every swap
    flag [s] (omitted, or any integer), encoding with [s] what decoding [t]
    with [s] returned gives the canonical lower-case, dashed, unbraced
    36-character form of [t]. *)
Theorem decode_encode_same_flag : forall (t : list char) (s : option Z),
  isValidUuidText t = true ->
  decode_encode t s s = Some (mkOut (Some (canonical t)) false false).
Proof.
  intros t s V. unfold decode_encode.
  rewrite uuid_to_bin_valid by assumption. cbn [retval].
  destruct (flag_set s) eqn:F; rewrite bin_to_uuid_16, F by auto with len16.
  - now rewrite unswap_swap, canonical_of_bytes by auto with len16.
  - now rewrite canonical_of_bytes.
Qed.

Lemma decode_encode_same_flag_witness :
  let t := chars "{6CCD780C-BABA-1026-9564-0040F4311E29}" in
  isValidUuidText t = true /\
  decode_encode t (Some 1) (Some 1) =
  Some (mkOut (Some (chars "6ccd780c-baba-1026-9564-0040f4311e29")) false false).
Proof.
  intro t. split; [reflexivity|].
  exact (decode_encode_same_flag t (Some 1) eq_refl).
Defined.

(** C10: for every 16-byte value [b] and every swap flag [s], decoding with
    [s] the text that encoding [b] with [s] returned gives back exactly
    [b]; no 16-byte value is refused by the encoder. *)
Theorem encode_decode_same_flag : forall (b : list char) (s : option Z),
  List.length b = 16%nat ->
  encode_decode b s s = Some (mkOut (Some b) false false).
Proof.
  intros b s Hb. unfold encode_decode.
  rewrite bin_to_uuid_16 by assumption. cbn [retval].
  set (d := if flag_set s then unswap_ts b else b).
  assert (Hd : List.length d = 16%nat).
  { subst d. destruct (flag_set s); auto with len16. }
  destruct (dashed_text_of_bytes d Hd) as (F2 & _ & E).
  rewrite uuid_to_bin_valid by (unfold isValidUuidText; now rewrite F2, orb_true_r).
  rewrite E. subst d. destruct (flag_set s); [|reflexivity].
  now rewrite swap_unswap.
Qed.

Lemma encode_decode_same_flag_witness :
  let b := chars "0123456789abcdef" in
  List.length b = 16%nat /\
  encode_decode b (Some 1) (Some 1) = Some (mkOut (Some b) false false).
Proof.
  intro b. split; [reflexivity|].
  exact (encode_decode_same_flag b (Some 1) eq_refl).
Defined.

(** The text written for 16 bytes determines them. *)
Lemma dashed_hex_injective : forall d d' : list char,
  List.length d = 16%nat -> List.length d' = 16%nat ->
  dashed (hex_of_bytes d) = dashed (hex_of_bytes d') -> d = d'.
Proof.
  intros d d' Hd Hd' E.
  destruct (dashed_text_of_bytes d Hd) as (_ & _ & <-).
  destruct (dashed_text_of_bytes d' Hd') as (_ & _ & <-).
  now rewrite E.
Qed.

(** C3, as the code has it: decoding a valid text with the swap flag set and
    encoding the result with the flag clear gives the text of the reordered
    bytes; it differs from the canonical form of [t] exactly when [swap_ts]
    changes the bytes of [t]. *)
Theorem decode_encode_mismatched_flags : forall (t : list char) (f g : option Z),
  isValidUuidText t = true -> flag_set f = true -> flag_set g = false ->
  decode_encode t f g =
    Some (mkOut (Some (dashed (hex_of_bytes (swap_ts (uuid_bytes t))))) false false) /\
  (dashed (hex_of_bytes (swap_ts (uuid_bytes t))) <> canonical t <->
   swap_ts (uuid_bytes t) <> uuid_bytes t).
Proof.
  intros t f g V Ff Fg. pose proof (uuid_bytes_length t V) as L. split.
  - unfold decode_encode. rewrite uuid_to_bin_valid, Ff by assumption. cbn [retval].
    now rewrite bin_to_uuid_16, Fg by auto with len16.
  - rewrite <- canonical_of_bytes by assumption. split.
    + intros N E. apply N. now rewrite E.
    + intros N E. apply N. apply dashed_hex_injective; auto with len16.
Qed.

Lemma decode_encode_mismatched_flags_witness :
  let t := chars "6ccd780c-baba-1026-9564-0040f4311e29" in
  isValidUuidText t = true /\
  decode_encode t (Some 1) (Some 0) =
    Some (mkOut (Some (chars "1026baba-6ccd-780c-9564-0040f4311e29")) false false).
Proof.
  intro t. split; [reflexivity|].
  exact (proj1 (decode_encode_mismatched_flags t (Some 1) (Some 0)
                  eq_refl eq_refl eq_refl)).
Defined.

(** C3 as stated fails: the nil UUID is valid, and decoding it with the flag
    set then encoding with the flag clear returns its canonical form. *)
Lemma decode_encode_mismatched_counterexample :
  let t := chars "00000000-0000-0000-0000-000000000000" in
  isValidUuidText t = true /\
  decode_encode t (Some 1) (Some 0) = Some (mkOut (Some (canonical t)) false false).
Proof. split; reflexivity. Qed.

(** ** The validator *)

(** C4: [is_uuid] answers 1 exactly for a text-typed argument in one of the
    three accepted forms and 0 for everything else (any other string, any
    argument that is not text-typed); it reports NULL exactly for an absent
    argument, and never an error.  Strings are those the host can pass,
    shorter than 2^32 bytes. *)
Theorem is_uuid_spec : forall a : udf_arg,
  (forall t, a = StringArg (Some t) -> Z.of_nat (List.length t) < 2 ^ 32) ->
  exists r : udf_out Z,
    is_uuid [a] = Some r /\
    is_error r = false /\
    (is_null r = true <-> is_NULL a = true) /\
    (retval r = 1 <->
       exists t, a = StringArg (Some t) /\ isValidUuidText t = true) /\
    (retval r = 0 <->
       ~ exists t, a = StringArg (Some t) /\ isValidUuidText t = true).
Proof.
  intros a Hlen.
  destruct a as [[t|]|[n|]|[n|]|[t|]];
    try (eexists; split; [reflexivity|]; cbn;
         repeat split; try reflexivity; try discriminate;
         try (intros (t' & E & _); discriminate E);
         try (intros _ (t' & E & _); discriminate E); fail).
  unfold is_uuid. cbn [nth_error is_NULL arg_type Item_result_eqb negb chars_at].
  pose proof (uuid_unhexlify_valid t (uninit 16) (Hlen t eq_refl)) as V.
  destruct (uuid_unhexlify t _ (uninit 16)) as [ok data]. cbn [fst] in V. subst ok.
  eexists. split; [reflexivity|]. cbn [retval is_null is_error].
  split; [reflexivity|]. split; [split; discriminate|].
  destruct (isValidUuidText t) eqn:E; (split; split).
  - intros _. now exists t.
  - reflexivity.
  - discriminate.
  - intros N. exfalso. apply N. now exists t.
  - discriminate.
  - intros (t' & Et & V). injection Et as <-. congruence.
  - intros _ (t' & Et & V). injection Et as <-. congruence.
  - reflexivity.
Qed.

Lemma is_uuid_spec_witness :
  exists r : udf_out Z,
    is_uuid [StringArg (Some (chars "6ccd780cbaba102695640040f4311e29"))] = Some r /\
    retval r = 1 /\ is_null r = false.
Proof.
  destruct (is_uuid_spec (StringArg (Some (chars "6ccd780cbaba102695640040f4311e29"))))
    as (r & E & _ & Hn & H1 & _).
  - intros t Et. injection Et as <-. vm_compute. reflexivity.
  - exists r. split; [exact E|]. split.
    + apply H1. eexists. split; reflexivity.
    + destruct (is_null r); [|reflexivity].
      destruct Hn as [Hn _]. discriminate (Hn eq_refl).
Defined.

(** ** The decoder *)

(** C6: [uuid_to_bin] returns NULL exactly when its first argument is
    absent; it signals an error, returning no bytes, exactly when the
    argument is present and not in one of the three forms; otherwise it
    returns the 16 bytes the text denotes, in the order of its hex pairs,
    passed through [swap_ts] when the flag is set.  Strings are those the
    host can pass, shorter than 2^32 bytes. *)
Theorem uuid_to_bin_spec : forall (x : option (list char)) (flag : option Z),
  (forall t, x = Some t -> Z.of_nat (List.length t) < 2 ^ 32) ->
  exists r : udf_out (option (list char)),
    uuid_to_bin (call x flag) = Some r /\
    (is_null r = true <-> x = None) /\
    (is_error r = true <-> exists t, x = Some t /\ isValidUuidText t = false) /\
    (is_null r = true \/ is_error r = true -> retval r = None) /\
    (forall t, x = Some t -> isValidUuidText t = true ->
       let b := if flag_set flag then swap_ts (uuid_bytes t) else uuid_bytes t in
       retval r = Some b /\ List.length b = 16%nat).
Proof.
  intros x flag Hlen. destruct x as [t|].
  - destruct (isValidUuidText t) eqn:V.
    + rewrite uuid_to_bin_valid by assumption.
      eexists. split; [reflexivity|]. cbn [retval is_null is_error].
      split; [split; discriminate|].
      split; [split; [discriminate | intros (t' & E & V'); injection E as <-; congruence]|].
      split; [intros [H|H]; discriminate H|].
      intros t' E _. injection E as <-. split; [reflexivity|].
      destruct (flag_set flag); auto with len16.
    + rewrite uuid_to_bin_call.
      pose proof (uuid_unhexlify_valid t (uninit 16) (Hlen t eq_refl)) as F.
      destruct (uuid_unhexlify t _ (uninit 16)) as [ok data]. cbn [fst] in F.
      rewrite V in F. subst ok.
      eexists. split; [reflexivity|]. cbn [retval is_null is_error].
      split; [split; discriminate|].
      split; [split; [intros _; now exists t | reflexivity]|].
      split; [reflexivity|].
      intros t' E V'. injection E as <-. congruence.
  - rewrite uuid_to_bin_call.
    eexists. split; [reflexivity|]. cbn [retval is_null is_error].
    split; [split; reflexivity|].
    split; [split; [discriminate | intros (t' & E & _); discriminate E]|].
    split; [reflexivity|].
    intros t' E. discriminate E.
Qed.

Lemma uuid_to_bin_spec_witness :
  exists r : udf_out (option (list char)),
    uuid_to_bin (call (Some (chars "invalid")) (Some 1)) = Some r /\
    is_error r = true /\ retval r = None.
Proof.
  destruct (uuid_to_bin_spec (Some (chars "invalid")) (Some 1))
    as (r & E & _ & He & Hr & _).
  - intros t Et. injection Et as <-. vm_compute. reflexivity.
  - assert (Err : is_error r = true).
    { apply He. eexists. split; reflexivity. }
    exists r. split; [exact E|]. split; [exact Err|].
    apply Hr. right. exact Err.
Defined.

(** ** The encoder *)

(** C7: [bin_to_uuid] returns NULL exactly when its first argument is
    absent; it signals an error, returning no text, exactly when the
    argument is present and not 16 bytes long; otherwise it returns the text
    of the bytes, passed through [unswap_ts] first when the flag is set:
    exactly 36 characters, in the dashed form 2, lower-case hex digits and
    dashes only. *)
Theorem bin_to_uuid_spec : forall (x : option (list char)) (flag : option Z),
  exists r : udf_out (option (list char)),
    bin_to_uuid (call x flag) = Some r /\
    (is_null r = true <-> x = None) /\
    (is_error r = true <-> exists b, x = Some b /\ List.length b <> 16%nat) /\
    (is_null r = true \/ is_error r = true -> retval r = None) /\
    (forall b, x = Some b -> List.length b = 16%nat ->
       let text := dashed (hex_of_bytes (if flag_set flag then unswap_ts b else b)) in
       retval r = Some text /\
       List.length text = 36%nat /\
       is_form2 text = true /\
       forallb (fun c => is_lower_hex c || Ascii.eqb c "-") text = true).
Proof.
  intros x flag. destruct x as [b|].
  - destruct (Nat.eq_dec (List.length b) 16) as [Hb|Hb].
    + rewrite bin_to_uuid_16 by assumption.
      eexists. split; [reflexivity|]. cbn [retval is_null is_error].
      split; [split; discriminate|].
      split; [split; [discriminate | intros (b' & E & N); injection E as <-; contradiction]|].
      split; [intros [H|H]; discriminate H|].
      intros b' E _. injection E as <-.
      assert (Hd : List.length (if flag_set flag then unswap_ts b else b) = 16%nat).
      { destruct (flag_set flag); auto with len16. }
      destruct (dashed_text_of_bytes _ Hd) as (F2 & Low & _).
      split; [reflexivity|]. split; [now apply is_form2_length|]. now split.
    + unfold bin_to_uuid. cbn [call nth_error is_NULL chars_at].
      destruct (Z.eqb_spec (Z.of_nat (List.length b)) 16) as [E16|_]; [lia|].
      cbn [negb].
      eexists. split; [reflexivity|]. cbn [retval is_null is_error].
      split; [split; discriminate|].
      split; [split; [intros _; now exists b | reflexivity]|].
      split; [reflexivity|].
      intros b' E L. injection E as <-. contradiction.
  - eexists. split; [reflexivity|]. cbn [retval is_null is_error].
    split; [split; reflexivity|].
    split; [split; [discriminate | intros (b' & E & _); discriminate E]|].
    split; [reflexivity|].
    intros b' E. discriminate E.
Qed.

(** ** Argument checking *)

(** C8, as the code has it: [uuid_to_bin_init] refuses a call whose first
    argument is not text-typed, with status 1 and a message of its own, and
    leaves [initid] as it was; the refusal happens at initialisation, before
    any row is decoded. *)
Theorem uuid_to_bin_init_rejects_non_text :
  forall (initid : UDF_INIT) (args : UDF_ARGS) (message : string),
  1 <= arg_count args <= 2 ->
  arg_type (nth 0 args (StringArg None)) <> STRING_RESULT ->
  uuid_to_bin_init initid args message =
    (1, initid, "UUID_TO_BIN requires first argument as string").
Proof.
  intros initid args message Hc Ht. unfold uuid_to_bin_init.
  destruct (Z.ltb_spec (arg_count args) 1); [lia|].
  destruct (Z.gtb_spec (arg_count args) 2); [lia|].
  cbn [orb].
  destruct (arg_type (nth 0 args (StringArg None))); try reflexivity.
  contradiction.
Qed.

Lemma uuid_to_bin_init_rejects_non_text_witness :
  uuid_to_bin_init (mkInit false 0 false) [DecimalArg (Some (chars "12.5")); IntArg (Some 1)] ""
  = (1, mkInit false 0 false, "UUID_TO_BIN requires first argument as string").
Proof.
  apply uuid_to_bin_init_rejects_non_text.
  - vm_compute. split; discriminate.
  - discriminate.
Defined.

(** C8 as stated fails: for [UUID_TO_BIN(123)] the argument check itself
    reports an error, with its own message, before [uuid_to_bin] is called. *)
Lemma uuid_to_bin_non_text_counterexample :
  let args := [IntArg (Some 123)] in
  arg_type (nth 0 args (StringArg None)) = INT_RESULT /\
  uuid_to_bin_init (mkInit false 0 false) args ""
  = (1, mkInit false 0 false, "UUID_TO_BIN requires first argument as string").
Proof. split; reflexivity. Qed.

(** The argument checks accept exactly the shapes [f(text)] and
    [f(text, integer)]; [call] builds all of them whose flag is present. *)
Lemma uuid_to_bin_init_accepts : forall initid args message,
  fst (fst (uuid_to_bin_init initid args message)) = 0 <->
  exists x, args = [StringArg x] \/ exists v, args = [StringArg x; IntArg v].
Proof.
  intros initid args message. unfold uuid_to_bin_init, arg_count.
  destruct args as [|a [|b [|c rest]]].
  - split; [discriminate | intros (y & [E | (w & E)]); discriminate E].
  - destruct a; cbn; split; try discriminate; try (intros _; eexists; left; reflexivity);
      intros (y & [E | (w & E)]); discriminate E.
  - destruct a, b; cbn; split; try discriminate;
      try (intros _; eexists; right; eexists; reflexivity);
      intros (y & [E | (w & E)]); discriminate E.
  - cbn [List.length]. destruct (Z.ltb_spec (Z.of_nat (S (S (S (List.length rest))))) 1); [lia|].
    destruct (Z.gtb_spec (Z.of_nat (S (S (S (List.length rest))))) 2); [|lia].
    cbn. split; [discriminate | intros (y & [E | (w & E)]); discriminate E].
Qed.

Lemma bin_to_uuid_init_accepts : forall initid args message,
  fst (fst (bin_to_uuid_init initid args message)) = 0 <->
  exists x, args = [StringArg x] \/ exists v, args = [StringArg x; IntArg v].
Proof.
  intros initid args message. unfold bin_to_uuid_init, arg_count.
  destruct args as [|a [|b [|c rest]]].
  - split; [discriminate | intros (y & [E | (w & E)]); discriminate E].
  - destruct a; cbn; split; try discriminate; try (intros _; eexists; left; reflexivity);
      intros (y & [E | (w & E)]); discriminate E.
  - destruct a, b; cbn; split; try discriminate;
      try (intros _; eexists; right; eexists; reflexivity);
      intros (y & [E | (w & E)]); discriminate E.
  - cbn [List.length]. destruct (Z.ltb_spec (Z.of_nat (S (S (S (List.length rest))))) 1); [lia|].
    destruct (Z.gtb_spec (Z.of_nat (S (S (S (List.length rest))))) 2); [|lia].
    cbn. split; [discriminate | intros (y & [E | (w & E)]); discriminate E].
Qed.

(** [is_uuid_init] only counts the arguments: a non-text-typed argument
    reaches [is_uuid], which answers 0. *)
Lemma is_uuid_init_accepts : forall initid args message,
  fst (fst (is_uuid_init initid args message)) = 0 <-> exists a, args = [a].
Proof.
  intros initid args message. unfold is_uuid_init, arg_count.
  destruct args as [|a [|b rest]].
  - split; [discriminate | intros (a & E); discriminate E].
  - cbn. split; [intros _; now exists a | reflexivity].
  - cbn [List.length].
    destruct (Z.eqb_spec (Z.of_nat (S (S (List.length rest)))) 1); [lia|].
    cbn. split; [discriminate | intros (y & E); discriminate E].
Qed.

(** ** The scenarios of the README *)

Example scenario_is_uuid :
  map (fun a => option_map (fun r => (retval r, is_null r)) (is_uuid [a]))
    [ StringArg (Some (chars "6ccd780c-baba-1026-9564-0040f4311e29"));
      StringArg (Some (chars "6ccd780cbaba102695640040f4311e29"));
      StringArg (Some (chars "{6ccd780c-baba-1026-9564-0040f4311e29}"));
      StringArg None;
      IntArg (Some 123);
      StringArg (Some (chars "invalid")) ]
  = [ Some (1, false); Some (1, false); Some (1, false);
      Some (0, true); Some (0, false); Some (0, false) ].
Proof. reflexivity. Qed.

Example scenario_round_trip :
  map (fun tf => decode_encode (chars (fst tf)) (snd tf) (snd tf))
    [ ("6ccd780c-baba-1026-9564-0040f4311e29", None);
      ("6ccd780c-baba-1026-9564-0040f4311e29", Some 0);
      ("6ccd780c-baba-1026-9564-0040f4311e29", Some 1);
      ("6ccd780cbaba102695640040f4311e29", Some 1);
      ("{6ccd780c-baba-1026-9564-0040f4311e29}", Some 1) ]
  = repeat (Some (mkOut (Some (chars "6ccd780c-baba-1026-9564-0040f4311e29")) false false)) 5.
Proof. reflexivity. Qed.

Example scenario_errors :
  uuid_to_bin (call (Some (chars "invalid")) None) = Some (mkOut None false true) /\
  bin_to_uuid (call (Some (chars "123456789012345")) None) = Some (mkOut None false true) /\
  uuid_to_bin (call None None) = Some (mkOut None true false) /\
  bin_to_uuid (call None None) = Some (mkOut None true false).
Proof. repeat split. Qed.

(** ** Argument checks, in full *)

Lemma text_then_flag_iff : forall args,
  text_then_flag args = true <->
  exists x, args = [StringArg x] \/ exists v, args = [StringArg x; IntArg v].
Proof.
  intro args. split.
  - destruct args as [|[x| | |] [|[|v| |] [|c rest]]]; try discriminate; intros _.
    + exists x. now left.
    + exists x. right. now exists v.
  - intros (x & [-> | (v & ->)]); reflexivity.
Qed.

(** X1: [uuid_to_bin_init] accepts exactly the calls [f(text)] and
    [f(text, integer)]; on acceptance it declares a nullable, constant
    result of at most 16 bytes and leaves the message buffer alone; on
    refusal it returns 1 and leaves [initid] as it was. *)
Theorem uuid_to_bin_init_outcome :
  forall (initid : UDF_INIT) (args : UDF_ARGS) (message : string),
  if text_then_flag args
  then uuid_to_bin_init initid args message = (0, mkInit true 16 true, message)
  else fst (uuid_to_bin_init initid args message) = (1, initid).
Proof.
  intros initid args message.
  destruct (text_then_flag args) eqn:S.
  - apply text_then_flag_iff in S. destruct S as (x & [-> | (v & ->)]); reflexivity.
  - pose proof (uuid_to_bin_init_accepts initid args message) as A.
    rewrite <- text_then_flag_iff, S in A.
    unfold uuid_to_bin_init in *.
    repeat match goal with
    | |- context [if ?b then _ else _] => destruct b; try reflexivity
    end.
    exfalso. cbn in A. destruct A as [A _]. discriminate (A eq_refl).
Qed.

(** X2: [bin_to_uuid_init] accepts exactly the calls [f(binary)] and
    [f(binary, integer)], where a binary value has the string type; on
    acceptance it declares a nullable, non-constant result of at most 36
    characters and leaves the message buffer alone; on refusal it returns 1
    and leaves [initid] as it was. *)
Theorem bin_to_uuid_init_outcome :
  forall (initid : UDF_INIT) (args : UDF_ARGS) (message : string),
  if text_then_flag args
  then bin_to_uuid_init initid args message = (0, mkInit true 36 false, message)
  else fst (bin_to_uuid_init initid args message) = (1, initid).
Proof.
  intros initid args message.
  destruct (text_then_flag args) eqn:S.
  - apply text_then_flag_iff in S. destruct S as (x & [-> | (v & ->)]); reflexivity.
  - pose proof (bin_to_uuid_init_accepts initid args message) as A.
    rewrite <- text_then_flag_iff, S in A.
    unfold bin_to_uuid_init in *.
    repeat match goal with
    | |- context [if ?b then _ else _] => destruct b; try reflexivity
    end.
    exfalso. cbn in A. destruct A as [A _]. discriminate (A eq_refl).
Qed.

(** X3: [is_uuid_init] looks at the number of arguments only: one argument
    of any type is accepted, [const_item] is set and the other fields of
    [initid] and the message buffer are kept; any other count is refused
    with status 1, the message "IS_UUID requires one argument" and
    [initid] untouched. *)
Theorem is_uuid_init_outcome :
  forall (initid : UDF_INIT) (args : UDF_ARGS) (message : string),
  match args with
  | [a] =>
      is_uuid_init initid args message
      = (0, mkInit (maybe_null initid) (max_length initid) true, message)
  | _ =>
      is_uuid_init initid args message
      = (1, initid, "IS_UUID requires one argument")
  end.
Proof.
  intros initid args message. destruct args as [|a [|b rest]]; try reflexivity.
  unfold is_uuid_init, arg_count. cbn [List.length].
  destruct (Z.eqb_spec (Z.of_nat (S (S (List.length rest)))) 1); [lia | reflexivity].
Qed.

(** ** Order of the checks and the flag *)

(** [bin_to_uuid] on a call with a binary (or absent) first argument. *)
Lemma bin_to_uuid_call : forall (x : option (list char)) (flag : option Z),
  bin_to_uuid (call x flag) =
  Some match x with
       | None => mkOut None true false
       | Some b =>
         if Z.of_nat (List.length b) =? 16
         then
           let data := memcpy (uninit 16) 0 b 0 16 in
           let data := if flag_set flag then unswap_ts data else data in
           mkOut (Some (firstn 36 (uuid_hexlify data result_buffer))) false false
         else mkOut None false true
       end.
Proof.
  intros [b|] flag; [|reflexivity].
  unfold bin_to_uuid. cbn [call nth_error is_NULL chars_at].
  change (StringArg (Some b) :: _) with (call (Some b) flag).
  rewrite read_swap_flag_call.
  destruct (Z.of_nat (List.length b) =? 16); reflexivity.
Qed.

(** X4: an absent first argument is answered before anything else is looked
    at: whatever its declared type and whatever follows it (an absent flag
    included), all three functions report NULL and no error; and
    [bin_to_uuid] reports a value of the wrong length as an error before it
    reads the flag. *)
Theorem absent_argument_first :
  forall (a0 : udf_arg) (rest : UDF_ARGS),
  is_NULL a0 = true ->
  is_uuid (a0 :: rest) = Some (mkOut 0 true false) /\
  uuid_to_bin (a0 :: rest) = Some (mkOut None true false) /\
  bin_to_uuid (a0 :: rest) = Some (mkOut None true false) /\
  (forall b : list char, List.length b <> 16%nat ->
     bin_to_uuid (StringArg (Some b) :: rest) = Some (mkOut None false true)).
Proof.
  intros a0 rest H. unfold is_uuid, uuid_to_bin, bin_to_uuid.
  cbn [nth_error]. rewrite H. repeat split.
  intros b Hb. cbn [is_NULL chars_at].
  destruct (Z.eqb_spec (Z.of_nat (List.length b)) 16); [lia | reflexivity].
Qed.

Lemma absent_argument_first_witness :
  uuid_to_bin [StringArg None; IntArg None] = Some (mkOut None true false) /\
  bin_to_uuid [StringArg (Some (chars "abc")); IntArg None] = Some (mkOut None false true).
Proof.
  destruct (absent_argument_first (StringArg None) [IntArg None] eq_refl)
    as (_ & H2 & _ & H4).
  split; [exact H2|]. apply H4. discriminate.
Defined.

(** X5: the validator and the decoder never disagree: [is_uuid] answers 1
    for a text exactly when [uuid_to_bin] decodes it without error, for
    every text and every flag. *)
Theorem is_uuid_agrees_with_uuid_to_bin :
  forall (t : list char) (flag : option Z),
  exists (v : udf_out Z) (r : udf_out (option (list char))),
    is_uuid [StringArg (Some t)] = Some v /\
    uuid_to_bin (call (Some t) flag) = Some r /\
    (retval v = 1 <-> is_error r = false) /\
    (retval v = 0 <-> is_error r = true) /\
    (retval v = 1 <-> exists b, retval r = Some b).
Proof.
  intros t flag. rewrite uuid_to_bin_call. unfold is_uuid.
  cbn [nth_error is_NULL arg_type Item_result_eqb negb chars_at].
  destruct (uuid_unhexlify t _ (uninit 16)) as [[] data];
    eexists; eexists; (split; [reflexivity|]); (split; [reflexivity|]);
    cbn [retval is_error]; repeat split; try discriminate; try reflexivity.
  - intros _. eexists. reflexivity.
  - intros (b & E). discriminate E.
Qed.

(** X6: the flag counts only as zero or nonzero, and leaving it out is the
    same as passing 0: two calls whose flags have the same truth value
    return the same thing, in both directions. *)
Theorem flag_truth_value_only :
  forall (x : option (list char)) (f g : option Z),
  flag_set f = flag_set g ->
  uuid_to_bin (call x f) = uuid_to_bin (call x g) /\
  bin_to_uuid (call x f) = bin_to_uuid (call x g).
Proof.
  intros x f g E. rewrite !uuid_to_bin_call, !bin_to_uuid_call, E. now split.
Qed.

Lemma flag_truth_value_only_witness :
  let t := Some (chars "6ccd780c-baba-1026-9564-0040f4311e29") in
  uuid_to_bin (call t (Some (-7))) = uuid_to_bin (call t (Some 1)) /\
  bin_to_uuid (call t None) = bin_to_uuid (call t (Some 0)).
Proof.
  intro t. split.
  - exact (proj1 (flag_truth_value_only t (Some (-7)) (Some 1) eq_refl)).
  - exact (proj2 (flag_truth_value_only t None (Some 0) eq_refl)).
Defined.

(** X7: the flag adds the transform and nothing else: on a valid text
    [uuid_to_bin] with the flag set returns [swap_ts] of what it returns
    with the flag clear, and on 16 bytes [bin_to_uuid] with the flag set
    returns what it returns with the flag clear on [unswap_ts] of the
    bytes. *)
Theorem flag_is_the_transform :
  forall (t b : list char) (f g : option Z),
  isValidUuidText t = true -> List.length b = 16%nat ->
  flag_set f = true -> flag_set g = false ->
  (exists d, uuid_to_bin (call (Some t) g) = Some (mkOut (Some d) false false) /\
             uuid_to_bin (call (Some t) f) = Some (mkOut (Some (swap_ts d)) false false)) /\
  bin_to_uuid (call (Some b) f) = bin_to_uuid (call (Some (unswap_ts b)) g).
Proof.
  intros t b f g V Hb Ff Fg. split.
  - exists (uuid_bytes t). rewrite !uuid_to_bin_valid, Ff, Fg by assumption. now split.
  - rewrite !bin_to_uuid_16, Ff, Fg by auto with len16. reflexivity.
Qed.

Lemma flag_is_the_transform_witness :
  let t := chars "6ccd780c-baba-1026-9564-0040f4311e29" in
  let b := chars "0123456789abcdef" in
  bin_to_uuid (call (Some b) (Some 1)) = bin_to_uuid (call (Some (unswap_ts b)) None).
Proof.
  intros t b.
  exact (proj2 (flag_is_the_transform t b (Some 1) None eq_refl eq_refl eq_refl eq_refl)).
Defined.

(** ** What the parser and the formatter touch *)

Lemma unhexlify_plain_prefix : forall n i t rest uuid,
  (2 * n <= List.length t)%nat ->
  unhexlify_plain n i (t ++ rest) uuid = unhexlify_plain n i t uuid.
Proof.
  induction n as [|n IH]; intros i t rest uuid Hlen; [reflexivity|].
  destruct t as [|a [|b t]]; try (cbn in Hlen; lia).
  cbn [app]. rewrite !unhexlify_plain_step.
  destruct (is_hex a && is_hex b); [|reflexivity].
  apply IH. cbn in Hlen. lia.
Qed.

Lemma unhexlify_dashed_reads_36 : forall t rest uuid,
  (36 <= List.length t)%nat ->
  unhexlify_dashed 16 0 (t ++ rest) uuid = unhexlify_dashed 16 0 t uuid.
Proof.
  intros t rest uuid Hlen.
  rewrite <- (firstn_skipn 36 t).
  assert (H36 : List.length (firstn 36 t) = 36%nat) by (rewrite length_firstn; lia).
  revert H36. generalize (skipn 36 t) as q. generalize (firstn 36 t) as p.
  intros p q Hp. explode_list p. clear Hp Hlen. cbn [app].
  unroll_dashed. reflexivity.
Qed.

(** X8: [uuid_unhexlify] never reads past the length it is given: what
    follows the first [length] characters of the string has no influence on
    the result or on the buffer. *)
Theorem uuid_unhexlify_reads_length_only :
  forall (t rest : list char) (length : Z) (uuid : list char),
  length <= Z.of_nat (List.length t) ->
  uuid_unhexlify (t ++ rest) length uuid = uuid_unhexlify t length uuid.
Proof.
  intros t rest len uuid Hlen. unfold uuid_unhexlify.
  destruct (Z.eqb_spec len 32) as [E32|N32].
  { apply unhexlify_plain_prefix. cbn. lia. }
  destruct (Z.eqb_spec len 38) as [E38|N38].
  - subst len. destruct t as [|c t]; [cbn in Hlen; lia|].
    cbn [List.length] in Hlen. cbn [app nth skipn andb].
    rewrite app_nth1 by lia.
    destruct (Ascii.eqb c "{" && Ascii.eqb (nth 36 t NUL) "}"); [|reflexivity].
    change (38 - 2 =? 36) with true. cbv iota.
    apply unhexlify_dashed_reads_36. lia.
  - cbn [andb]. destruct (Z.eqb_spec len 36) as [E36|N36]; [|reflexivity].
    apply unhexlify_dashed_reads_36. lia.
Qed.

Lemma uuid_unhexlify_reads_length_only_witness :
  let t := chars "6ccd780cbaba102695640040f4311e29" in
  uuid_unhexlify (t ++ chars "-trailing bytes") 32 (uninit 16)
  = uuid_unhexlify t 32 (uninit 16).
Proof.
  intro t. apply uuid_unhexlify_reads_length_only. vm_compute. discriminate.
Defined.

Lemma store_length : forall (p : list char) i v,
  List.length (store p i v) = List.length p.
Proof.
  induction p as [|h p IH]; intros [|i] v; cbn; try reflexivity. now rewrite IH.
Qed.

Lemma store_app_l : forall (p rest : list char) i v,
  (i < List.length p)%nat -> store (p ++ rest) i v = (store p i v ++ rest)%list.
Proof.
  induction p as [|h p IH]; intros rest [|i] v H; cbn in *; try lia; try reflexivity.
  rewrite IH by lia. reflexivity.
Qed.

Lemma unhexlify_plain_frame : forall n i ptr uuid rest,
  (i + n <= List.length uuid)%nat ->
  unhexlify_plain n i ptr (uuid ++ rest) =
  (fst (unhexlify_plain n i ptr uuid), (snd (unhexlify_plain n i ptr uuid) ++ rest)%list).
Proof.
  induction n as [|n IH]; intros i ptr uuid rest H; [reflexivity|].
  cbn [unhexlify_plain].
  destruct ((hexchar_to_int (nth 0 ptr NUL) <? 0) || (hexchar_to_int (nth 1 ptr NUL) <? 0));
    [reflexivity|].
  rewrite store_app_l by lia. apply IH. rewrite store_length. lia.
Qed.

Lemma unhexlify_dashed_frame : forall n i ptr uuid rest,
  (i + n <= List.length uuid)%nat ->
  unhexlify_dashed n i ptr (uuid ++ rest) =
  (fst (unhexlify_dashed n i ptr uuid), (snd (unhexlify_dashed n i ptr uuid) ++ rest)%list).
Proof.
  induction n as [|n IH]; intros i ptr uuid rest H; [reflexivity|].
  cbn [unhexlify_dashed].
  destruct ((hexchar_to_int (nth 0 ptr NUL) <? 0) || (hexchar_to_int (nth 1 ptr NUL) <? 0));
    [reflexivity|].
  rewrite store_app_l by lia.
  destruct (dash_after i).
  - destruct (negb (Ascii.eqb (nth 0 (skipn 2 ptr) NUL) "-")); [reflexivity|].
    apply IH. rewrite store_length. lia.
  - apply IH. rewrite store_length. lia.
Qed.

(** X9: [uuid_unhexlify] writes into the 16 cells of [uuid] and nowhere
    else: memory that follows the buffer comes out as it went in, on success
    and on failure, and does not change what is returned or stored. *)
Theorem uuid_unhexlify_writes_16_only :
  forall (str : list char) (length : Z) (uuid rest : list char),
  List.length uuid = 16%nat ->
  uuid_unhexlify str length (uuid ++ rest) =
  (fst (uuid_unhexlify str length uuid),
   (snd (uuid_unhexlify str length uuid) ++ rest)%list).
Proof.
  intros str len uuid rest Hu. unfold uuid_unhexlify.
  destruct (len =? 32); [apply unhexlify_plain_frame; lia|].
  destruct ((len =? 38) && Ascii.eqb (nth 0 str NUL) "{" && Ascii.eqb (nth 37 str NUL) "}").
  - destruct (len - 2 =? 36); [apply unhexlify_dashed_frame; lia | reflexivity].
  - destruct (len =? 36); [apply unhexlify_dashed_frame; lia | reflexivity].
Qed.

Lemma uuid_unhexlify_writes_16_only_witness :
  let t := chars "6ccd780c-baba-1026-zzzz-0040f4311e29" in
  uuid_unhexlify t 36 (uninit 16 ++ chars "guard")
  = (false, (snd (uuid_unhexlify t 36 (uninit 16)) ++ chars "guard")%list).
Proof.
  intro t.
  exact (uuid_unhexlify_writes_16_only t 36 (uninit 16) (chars "guard") eq_refl).
Defined.

(** X10: [uuid_hexlify] reads the first 16 bytes of [uuid] and writes the
    first 36 characters of [out], nothing more: there is no terminating NUL,
    and whatever [out] held from offset 36 on is still there. *)
Theorem uuid_hexlify_writes_36_only :
  forall (b extra out : list char),
  List.length b = 16%nat -> (36 <= List.length out)%nat ->
  uuid_hexlify (b ++ extra) out = (dashed (hex_of_bytes b) ++ skipn 36 out)%list.
Proof.
  intros b extra out Hb Hout. explode_list b. clear Hb.
  rewrite <- (firstn_skipn 36 out) at 1.
  assert (H36 : List.length (firstn 36 out) = 36%nat) by (rewrite length_firstn; lia).
  revert H36. generalize (skipn 36 out) as rest. generalize (firstn 36 out) as p.
  intros p rest Hp. explode_list p. clear Hp Hout.
  unfold uuid_hexlify.
  cbn [app hexlify_loop nth dash_after store].
  unfold hex_of_bytes. cbn [flat_map].
  repeat match goal with
  | |- context [byteToHexPair ?c] =>
      let x := fresh "x" in let y := fresh "y" in let E := fresh "E" in
      destruct (byteToHexPair c) as [|x [|y [|? ?]]] eqn:E;
      try discriminate E;
      destruct (hexlify_pair_eq _ _ _ E) as [-> ->]; clear E
  end.
  reflexivity.
Qed.

Lemma uuid_hexlify_writes_36_only_witness :
  uuid_hexlify (chars "0123456789abcdef" ++ chars "more") (repeat "#"%char 40)
  = (chars "30313233-3435-3637-3839-616263646566" ++ chars "####")%list.
Proof.
  rewrite (uuid_hexlify_writes_36_only (chars "0123456789abcdef") (chars "more")
             (repeat "#"%char 40)); [reflexivity | reflexivity | cbn; lia].
Defined.

(** ** Letter case *)

Lemma hexchar_to_int_to_lower : forall c : char,
  hexchar_to_int (to_lower c) = hexchar_to_int c.
Proof. intro c. by_all_chars c. Qed.

Lemma to_lower_punctuation : forall c : char,
  Ascii.eqb (to_lower c) "-" = Ascii.eqb c "-" /\
  Ascii.eqb (to_lower c) "{" = Ascii.eqb c "{" /\
  Ascii.eqb (to_lower c) "}" = Ascii.eqb c "}".
Proof. intro c. by_all_chars c; repeat split. Qed.

Lemma nth_map_to_lower : forall k (l : list char),
  nth k (map to_lower l) NUL = to_lower (nth k l NUL).
Proof. intros k l. change NUL with (to_lower NUL) at 1. apply map_nth. Qed.

Lemma unhexlify_plain_to_lower : forall n i ptr uuid,
  unhexlify_plain n i (map to_lower ptr) uuid = unhexlify_plain n i ptr uuid.
Proof.
  induction n as [|n IH]; intros i ptr uuid; [reflexivity|].
  cbn [unhexlify_plain].
  rewrite !nth_map_to_lower, !hexchar_to_int_to_lower, skipn_map, IH. reflexivity.
Qed.

Lemma unhexlify_dashed_to_lower : forall n i ptr uuid,
  unhexlify_dashed n i (map to_lower ptr) uuid = unhexlify_dashed n i ptr uuid.
Proof.
  induction n as [|n IH]; intros i ptr uuid; [reflexivity|].
  cbn [unhexlify_dashed].
  rewrite !nth_map_to_lower, !hexchar_to_int_to_lower, !skipn_map,
    nth_map_to_lower, (proj1 (to_lower_punctuation _)), !IH.
  reflexivity.
Qed.

Lemma uuid_unhexlify_to_lower : forall t length uuid,
  uuid_unhexlify (map to_lower t) length uuid = uuid_unhexlify t length uuid.
Proof.
  intros t len uuid. unfold uuid_unhexlify.
  rewrite !nth_map_to_lower, skipn_map.
  destruct (to_lower_punctuation (nth 0 t NUL)) as (_ & -> & _).
  destruct (to_lower_punctuation (nth 37 t NUL)) as (_ & _ & ->).
  rewrite unhexlify_plain_to_lower.
  destruct (len =? 32); [reflexivity|].
  destruct ((len =? 38) && Ascii.eqb (nth 0 t NUL) "{" && Ascii.eqb (nth 37 t NUL) "}");
    now rewrite unhexlify_dashed_to_lower.
Qed.

(** X11: letter case is ignored on the way in: two texts that differ only
    in the case of their letters are validated alike and decode to the same
    result, valid or not. *)
Theorem letter_case_ignored :
  forall (t t' : list char) (flag : option Z),
  map to_lower t = map to_lower t' ->
  is_uuid [StringArg (Some t)] = is_uuid [StringArg (Some t')] /\
  uuid_to_bin (call (Some t) flag) = uuid_to_bin (call (Some t') flag).
Proof.
  intros t t' flag E.
  assert (L : List.length t = List.length t').
  { rewrite <- (length_map to_lower t), E. apply length_map. }
  assert (U : uuid_unhexlify t (to_int (Z.of_nat (List.length t))) (uninit 16)
              = uuid_unhexlify t' (to_int (Z.of_nat (List.length t'))) (uninit 16)).
  { rewrite <- (uuid_unhexlify_to_lower t), <- (uuid_unhexlify_to_lower t'), E, L.
    reflexivity. }
  split.
  - unfold is_uuid. cbn [nth_error is_NULL arg_type Item_result_eqb negb chars_at].
    now rewrite U.
  - rewrite !uuid_to_bin_call. now rewrite U.
Qed.

Lemma letter_case_ignored_witness :
  uuid_to_bin (call (Some (chars "6CCD780C-BABA-1026-9564-0040F4311E29")) (Some 1))
  = uuid_to_bin (call (Some (chars "6ccd780c-baba-1026-9564-0040f4311e29")) (Some 1)).
Proof.
  exact (proj2 (letter_case_ignored
                  (chars "6CCD780C-BABA-1026-9564-0040F4311E29")
                  (chars "6ccd780c-baba-1026-9564-0040f4311e29") (Some 1) eq_refl)).
Defined.

(** ** More on the timestamp transforms *)

(** X12: [swap_ts] is not its own inverse.  On a 16-byte buffer, applying
    it twice exchanges the two halves of time_low and exchanges time_mid
    with time_hi, three times is [unswap_ts], and only four times gives
    the buffer back. *)
Theorem swap_ts_order_four : forall x : list char,
  List.length x = 16%nat ->
  swap_ts (swap_ts x)
    = (firstn 2 (skipn 2 x) ++ firstn 2 x ++ firstn 2 (skipn 6 x)
       ++ firstn 2 (skipn 4 x) ++ skipn 8 x)%list /\
  swap_ts (swap_ts x) = unswap_ts (unswap_ts x) /\
  swap_ts (swap_ts (swap_ts x)) = unswap_ts x /\
  swap_ts (swap_ts (swap_ts (swap_ts x))) = x.
Proof. intros x H. explode_list x. repeat split. Qed.

Lemma swap_ts_order_four_witness :
  let x := chars "0123456789abcdef" in
  swap_ts (swap_ts x) = chars "2301674589abcdef" /\
  swap_ts (swap_ts (swap_ts (swap_ts x))) = x.
Proof.
  intro x. destruct (swap_ts_order_four x eq_refl) as (H2 & _ & _ & H4).
  split; [exact H2 | exact H4].
Defined.

(** X13: the 16-byte buffers that [swap_ts] leaves unchanged are those whose
    first eight bytes repeat one pair of bytes four times; they are also the
    ones [unswap_ts] leaves unchanged.  For these UUIDs, and no others, the
    swap flag makes no difference. *)
Theorem swap_ts_fixed_points : forall x : list char,
  List.length x = 16%nat ->
  let a := nth 0 x NUL in
  let b := nth 1 x NUL in
  (swap_ts x = x <-> firstn 8 x = [a; b; a; b; a; b; a; b]) /\
  (unswap_ts x = x <-> swap_ts x = x).
Proof.
  intros x H. explode_list x. clear H. cbn [nth firstn].
  rewrite swap_ts_fields_eq, unswap_ts_fields.
  repeat split; intro E; injection E; intros; subst; reflexivity.
Qed.

Lemma swap_ts_fixed_points_witness :
  let x := chars "xyxyxyxy01234567" in swap_ts x = x.
Proof.
  intro x. apply (proj1 (swap_ts_fixed_points x eq_refl)). reflexivity.
Defined.

(** ** Normal forms *)

Lemma swap_ts_injective : forall x y : list char,
  List.length x = 16%nat -> List.length y = 16%nat ->
  swap_ts x = swap_ts y -> x = y.
Proof.
  intros x y Hx Hy E.
  rewrite <- (unswap_swap x Hx), <- (unswap_swap y Hy), E. reflexivity.
Qed.

Lemma unswap_ts_injective : forall x y : list char,
  List.length x = 16%nat -> List.length y = 16%nat ->
  unswap_ts x = unswap_ts y -> x = y.
Proof.
  intros x y Hx Hy E.
  rewrite <- (swap_unswap x Hx), <- (swap_unswap y Hy), E. reflexivity.
Qed.

(** X14: what [bin_to_uuid] returns for 16 bytes is a valid text that is
    already canonical, and a round trip through [uuid_to_bin] and
    [bin_to_uuid] with one flag gives the same text again. *)
Theorem bin_to_uuid_output_is_canonical :
  forall (b : list char) (f s : option Z),
  List.length b = 16%nat ->
  exists text : list char,
    bin_to_uuid (call (Some b) f) = Some (mkOut (Some text) false false) /\
    isValidUuidText text = true /\
    canonical text = text /\
    decode_encode text s s = Some (mkOut (Some text) false false).
Proof.
  intros b f s Hb.
  set (d := if flag_set f then unswap_ts b else b).
  assert (Hd : List.length d = 16%nat).
  { subst d. destruct (flag_set f); auto with len16. }
  destruct (dashed_text_of_bytes d Hd) as (F2 & _ & E).
  assert (V : isValidUuidText (dashed (hex_of_bytes d)) = true).
  { unfold isValidUuidText. now rewrite F2, orb_true_r. }
  exists (dashed (hex_of_bytes d)).
  split; [now apply bin_to_uuid_16|]. split; [exact V|].
  assert (C : canonical (dashed (hex_of_bytes d)) = dashed (hex_of_bytes d)).
  { rewrite <- (canonical_of_bytes _ V), E. reflexivity. }
  split; [exact C|].
  unfold decode_encode. rewrite uuid_to_bin_valid by assumption. cbn [retval].
  rewrite E.
  destruct (flag_set s) eqn:F; rewrite bin_to_uuid_16, F by auto with len16.
  - now rewrite unswap_swap.
  - reflexivity.
Qed.

Lemma bin_to_uuid_output_is_canonical_witness :
  exists text : list char,
    bin_to_uuid (call (Some (chars "0123456789abcdef")) (Some 1))
      = Some (mkOut (Some text) false false) /\
    canonical text = text.
Proof.
  destruct (bin_to_uuid_output_is_canonical (chars "0123456789abcdef") (Some 1) None eq_refl)
    as (text & E & _ & C & _).
  exists text. split; [exact E | exact C].
Defined.

(** X15: [uuid_to_bin] tells two valid texts apart exactly when their
    canonical forms differ: braces, dashes and letter case never change the
    bytes, and nothing else is forgotten. *)
Theorem uuid_to_bin_equal_iff_canonical_equal :
  forall (t1 t2 : list char) (s : option Z),
  isValidUuidText t1 = true -> isValidUuidText t2 = true ->
  (uuid_to_bin (call (Some t1) s) = uuid_to_bin (call (Some t2) s) <->
   canonical t1 = canonical t2).
Proof.
  intros t1 t2 s V1 V2. rewrite !uuid_to_bin_valid by assumption.
  rewrite <- !canonical_of_bytes by assumption.
  pose proof (uuid_bytes_length t1 V1) as L1.
  pose proof (uuid_bytes_length t2 V2) as L2.
  split.
  - intro E. injection E as E.
    destruct (flag_set s); [apply swap_ts_injective in E; auto|]; now rewrite E.
  - intro E. apply dashed_hex_injective in E; auto. now rewrite E.
Qed.

Lemma uuid_to_bin_equal_iff_canonical_equal_witness :
  uuid_to_bin (call (Some (chars "{6CCD780C-BABA-1026-9564-0040F4311E29}")) (Some 1))
  = uuid_to_bin (call (Some (chars "6ccd780cbaba102695640040f4311e29")) (Some 1)).
Proof.
  refine (proj2 (uuid_to_bin_equal_iff_canonical_equal
                   (chars "{6CCD780C-BABA-1026-9564-0040F4311E29}")
                   (chars "6ccd780cbaba102695640040f4311e29") (Some 1) _ _) _);
    vm_compute; reflexivity.
Defined.

(** X16: [bin_to_uuid] loses nothing: with one flag, two different
    16-byte values never get the same text. *)
Theorem bin_to_uuid_injective :
  forall (b1 b2 : list char) (s : option Z),
  List.length b1 = 16%nat -> List.length b2 = 16%nat ->
  b1 <> b2 ->
  bin_to_uuid (call (Some b1) s) <> bin_to_uuid (call (Some b2) s).
Proof.
  intros b1 b2 s H1 H2 N E. apply N. rewrite !bin_to_uuid_16 in E by assumption.
  injection E as E. destruct (flag_set s).
  - apply dashed_hex_injective in E; auto with len16.
    now apply unswap_ts_injective in E.
  - now apply dashed_hex_injective in E.
Qed.

Lemma bin_to_uuid_injective_witness :
  bin_to_uuid (call (Some (chars "0123456789abcdef")) (Some 1))
  <> bin_to_uuid (call (Some (chars "0123456789abcdeF")) (Some 1)).
Proof.
  apply bin_to_uuid_injective; [reflexivity | reflexivity | discriminate].
Defined.

(** ** Nibbles *)

(** X17: for every byte, also one whose [char] value is negative, both
    indices [uuid_hexlify] computes lie inside the 16-entry digit table, and
    the two digits it picks are those of the byte's unsigned value divided
    by 16 and of the remainder. *)
Theorem uuid_hexlify_index_in_table : forall c : char,
  let hi := Z.land (Z.shiftr (int_of_char c) 4) 15 in
  let lo := Z.land (int_of_char c) 15 in
  0 <= hi < 16 /\ 0 <= lo < 16 /\
  16 * hi + lo = Z.of_N (N_of_ascii c) /\
  [hexdigit hi; hexdigit lo] = byteToHexPair c.
Proof.
  intro c. by_all_chars c; repeat split; discriminate.
Qed.

(** X18: [hexchar_to_int] returns -1 or a value from 0 to 15, and a value
    from 0 to 15 exactly on the 22 hex digits; the byte [uuid_unhexlify]
    stores for two digits has the unsigned value 16 times the first digit's
    value plus the second's, so the narrowing to [char] loses nothing. *)
Theorem hex_pair_value : forall a b : char,
  -1 <= hexchar_to_int a < 16 /\
  (0 <= hexchar_to_int a <-> is_hex a = true) /\
  (is_hex a = true -> is_hex b = true ->
   Z.of_N (N_of_ascii (hexpair (hexchar_to_int a) (hexchar_to_int b)))
   = 16 * hexchar_to_int a + hexchar_to_int b).
Proof.
  intros a b. split; [|split].
  - by_all_chars a; repeat split; discriminate.
  - by_all_chars a; split; intro H; try reflexivity; try discriminate H;
      try discriminate; exfalso; apply H; reflexivity.
  - intros Ha Hb.
    pose proof (hexchar_to_int_range a Ha) as Ra.
    pose proof (hexchar_to_int_range b Hb) as Rb.
    revert Ra Rb. generalize (hexchar_to_int a) (hexchar_to_int b).
    intros u l Hu Hl. nibble_cases u; nibble_cases l; reflexivity.
Qed.
